(** * Network Status Monitor: a shallow embedding of [main.py]

    The program is one class, [NetworkStatusMonitor], driven by the Tk main
    loop.  Its methods are embedded as transformers of an explicit
    application state [App]; the Tk [after] queue, the probe worker threads
    and the message boxes, which the methods only reach through calls, are
    part of that state so that callbacks can be interleaved the way the
    main loop interleaves them.

    Conventions.
    - Python [str] values are Rocq strings holding the UTF-8 bytes of the
      source literals.
    - [datetime.now().strftime(...)] is an input of [_update_status]: the
      formatted wall-clock time is supplied by whoever runs the callback.
    - [messagebox.showinfo] / [showwarning] are modal: the call returns
      only when the box is dismissed, and until then Tk's nested event loop
      keeps running the [after] callbacks.  A call of [_update_status]
      that reaches a message box is therefore suspended there; the
      suspended calls are kept, innermost first, in [open_boxes], and the
      rest of the call runs at the event [Dismiss].  The grab of an open
      box keeps the Start and Stop buttons from being pressed.
    - time is a millisecond counter [clock]; a job of the [after] queue may
      run once its due time has been reached. *)

From Stdlib Require Import ZArith List String Ascii Bool Lia.
Import ListNotations.
Local Open Scope string_scope.
Local Open Scope Z_scope.

(** ** The part of [requests] that [_check_connection] depends on *)
Module Requests.

(** Exception classes: the hierarchy of [requests.exceptions] together
    with the classes it derives from (builtin ones and urllib3's
    [HTTPError], imported there as [BaseHTTPError]), and two builtin
    classes outside of it. *)
Inductive exc_class : Type :=
| BaseException | Exception | OSError | ValueError
| KeyboardInterrupt | MemoryError | BaseHTTPError
| RequestException
| HTTPError | ConnectionError | ProxyError | SSLError
| Timeout | ConnectTimeout | ReadTimeout
| TooManyRedirects | InvalidURL | InvalidHeader
| ChunkedEncodingError | ContentDecodingError | RetryError.

Definition exc_class_eqb (a b : exc_class) : bool :=
  match a, b with
  | BaseException, BaseException | Exception, Exception
  | OSError, OSError | ValueError, ValueError
  | KeyboardInterrupt, KeyboardInterrupt | MemoryError, MemoryError
  | BaseHTTPError, BaseHTTPError
  | RequestException, RequestException
  | HTTPError, HTTPError | ConnectionError, ConnectionError
  | ProxyError, ProxyError | SSLError, SSLError
  | Timeout, Timeout | ConnectTimeout, ConnectTimeout
  | ReadTimeout, ReadTimeout
  | TooManyRedirects, TooManyRedirects | InvalidURL, InvalidURL
  | InvalidHeader, InvalidHeader
  | ChunkedEncodingError, ChunkedEncodingError
  | ContentDecodingError, ContentDecodingError
  | RetryError, RetryError => true
  | _, _ => false
  end.

(** Direct base classes, as in the [class C(B1, B2)] headers. *)
Definition bases (c : exc_class) : list exc_class :=
  match c with
  | BaseException => []
  | Exception => [BaseException]
  | KeyboardInterrupt => [BaseException]
  | OSError => [Exception]
  | ValueError => [Exception]
  | MemoryError => [Exception]
  | BaseHTTPError => [Exception]
  | RequestException => [OSError]
  | HTTPError => [RequestException]
  | ConnectionError => [RequestException]
  | ProxyError => [ConnectionError]
  | SSLError => [ConnectionError]
  | Timeout => [RequestException]
  | ConnectTimeout => [ConnectionError; Timeout]
  | ReadTimeout => [Timeout]
  | TooManyRedirects => [RequestException]
  | InvalidURL => [RequestException; ValueError]
  | InvalidHeader => [RequestException; ValueError]
  | ChunkedEncodingError => [RequestException]
  | ContentDecodingError => [RequestException; BaseHTTPError]
  | RetryError => [RequestException]
  end.

(** [issubclass c target]: [target] is [c] or is reached from [c] through
    [bases].  The hierarchy is at most six classes deep. *)
Fixpoint issubclass_upto (depth : nat) (c target : exc_class) : bool :=
  exc_class_eqb c target ||
  match depth with
  | O => false
  | S d => existsb (fun b => issubclass_upto d b target) (bases c)
  end.

Definition issubclass (c target : exc_class) : bool :=
  issubclass_upto 6 c target.

(** What [requests.get(url, timeout=...)] does: it returns a response,
    of which the program reads only [status_code], or it raises. *)
Inductive outcome : Type :=
| Response (status_code : Z)
| Raises (e : exc_class).

(** Network-level failures of one GET, and the exception class with which
    [requests] reports each of them. *)
Inductive failure : Type :=
| ConnectTimedOut | ReadTimedOut | DNSFailure | ConnectionRefused
| TLSFailure | MalformedResponse | BrokenChunk | UndecodableBody.

Definition raised_for (f : failure) : exc_class :=
  match f with
  | ConnectTimedOut => ConnectTimeout
  | ReadTimedOut => ReadTimeout
  | DNSFailure => ConnectionError
  | ConnectionRefused => ConnectionError
  | TLSFailure => SSLError
  | MalformedResponse => ConnectionError
  | BrokenChunk => ChunkedEncodingError
  | UndecodableBody => ContentDecodingError
  end.

End Requests.

(** ** Values handled by the GUI toolkit *)

(** The [state] option of a Tk widget. *)
Inductive widget_state : Type := normal | disabled.

(** A callback registered with [root.after]: the bound method and its
    arguments. *)
Inductive callback : Type :=
| cb_schedule_check
| cb_update_status (is_online : bool).

(** An entry of the [after] queue. *)
Record after_job : Type := mk_job {
  job_id : nat;
  job_due : Z;
  job_cb : callback
}.

(** A call of [tkinter.messagebox]. *)
Inductive alert_kind : Type := showinfo | showwarning.

Record alert : Type := mk_alert {
  alert_kind_of : alert_kind;
  alert_title : string;
  alert_message : string
}.

(** A running daemon thread whose target is [_check_connection]. *)
Record worker : Type := mk_worker {
  worker_id : nat;
  worker_launched : Z
}.

(** A call suspended at a message box, with the locals that the rest of
    the call uses: for [_update_status], its argument [is_online]. *)
Inductive suspended_call : Type :=
| in_update_status (is_online : bool).

(** Result of running code that may let an exception escape. *)
Inductive result (A : Type) : Type :=
| Ok (a : A)
| Raise (e : Requests.exc_class).
Arguments Ok {A} a.
Arguments Raise {A} e.

(** ** Application state *)
Record App : Type := mk_App {
  (* instance attributes set in __init__ *)
  is_monitoring : bool;
  previous_status : option bool;
  history : list string;
  _monitor_job : option nat;
  (* widgets *)
  status_label : string * string;          (* text, fg *)
  start_btn : widget_state;
  stop_btn : widget_state;
  history_box : string;
  history_box_state : widget_state;
  (* Tk main loop *)
  after_queue : list after_job;
  next_job : nat;
  clock : Z;
  (* worker threads in flight *)
  workers : list worker;
  next_worker : nat;
  (* message boxes shown so far *)
  alerts : list alert;
  (* calls waiting for their message box to be dismissed, innermost first *)
  open_boxes : list suspended_call
}.

Definition set_is_monitoring (v : bool) (s : App) : App :=
  mk_App v (previous_status s) (history s) (_monitor_job s)
    (status_label s) (start_btn s) (stop_btn s) (history_box s)
    (history_box_state s) (after_queue s) (next_job s) (clock s)
    (workers s) (next_worker s) (alerts s) (open_boxes s).

Definition set_previous_status (v : option bool) (s : App) : App :=
  mk_App (is_monitoring s) v (history s) (_monitor_job s)
    (status_label s) (start_btn s) (stop_btn s) (history_box s)
    (history_box_state s) (after_queue s) (next_job s) (clock s)
    (workers s) (next_worker s) (alerts s) (open_boxes s).

Definition set_history (v : list string) (s : App) : App :=
  mk_App (is_monitoring s) (previous_status s) v (_monitor_job s)
    (status_label s) (start_btn s) (stop_btn s) (history_box s)
    (history_box_state s) (after_queue s) (next_job s) (clock s)
    (workers s) (next_worker s) (alerts s) (open_boxes s).

Definition set_monitor_job (v : option nat) (s : App) : App :=
  mk_App (is_monitoring s) (previous_status s) (history s) v
    (status_label s) (start_btn s) (stop_btn s) (history_box s)
    (history_box_state s) (after_queue s) (next_job s) (clock s)
    (workers s) (next_worker s) (alerts s) (open_boxes s).

Definition set_status_label (v : string * string) (s : App) : App :=
  mk_App (is_monitoring s) (previous_status s) (history s) (_monitor_job s)
    v (start_btn s) (stop_btn s) (history_box s)
    (history_box_state s) (after_queue s) (next_job s) (clock s)
    (workers s) (next_worker s) (alerts s) (open_boxes s).

Definition set_start_btn (v : widget_state) (s : App) : App :=
  mk_App (is_monitoring s) (previous_status s) (history s) (_monitor_job s)
    (status_label s) v (stop_btn s) (history_box s)
    (history_box_state s) (after_queue s) (next_job s) (clock s)
    (workers s) (next_worker s) (alerts s) (open_boxes s).

Definition set_stop_btn (v : widget_state) (s : App) : App :=
  mk_App (is_monitoring s) (previous_status s) (history s) (_monitor_job s)
    (status_label s) (start_btn s) v (history_box s)
    (history_box_state s) (after_queue s) (next_job s) (clock s)
    (workers s) (next_worker s) (alerts s) (open_boxes s).

Definition set_history_box (v : string) (s : App) : App :=
  mk_App (is_monitoring s) (previous_status s) (history s) (_monitor_job s)
    (status_label s) (start_btn s) (stop_btn s) v
    (history_box_state s) (after_queue s) (next_job s) (clock s)
    (workers s) (next_worker s) (alerts s) (open_boxes s).

Definition set_history_box_state (v : widget_state) (s : App) : App :=
  mk_App (is_monitoring s) (previous_status s) (history s) (_monitor_job s)
    (status_label s) (start_btn s) (stop_btn s) (history_box s)
    v (after_queue s) (next_job s) (clock s)
    (workers s) (next_worker s) (alerts s) (open_boxes s).

Definition set_after_queue (v : list after_job) (s : App) : App :=
  mk_App (is_monitoring s) (previous_status s) (history s) (_monitor_job s)
    (status_label s) (start_btn s) (stop_btn s) (history_box s)
    (history_box_state s) v (next_job s) (clock s)
    (workers s) (next_worker s) (alerts s) (open_boxes s).

Definition set_next_job (v : nat) (s : App) : App :=
  mk_App (is_monitoring s) (previous_status s) (history s) (_monitor_job s)
    (status_label s) (start_btn s) (stop_btn s) (history_box s)
    (history_box_state s) (after_queue s) v (clock s)
    (workers s) (next_worker s) (alerts s) (open_boxes s).

Definition set_clock (v : Z) (s : App) : App :=
  mk_App (is_monitoring s) (previous_status s) (history s) (_monitor_job s)
    (status_label s) (start_btn s) (stop_btn s) (history_box s)
    (history_box_state s) (after_queue s) (next_job s) v
    (workers s) (next_worker s) (alerts s) (open_boxes s).

Definition set_workers (v : list worker) (s : App) : App :=
  mk_App (is_monitoring s) (previous_status s) (history s) (_monitor_job s)
    (status_label s) (start_btn s) (stop_btn s) (history_box s)
    (history_box_state s) (after_queue s) (next_job s) (clock s)
    v (next_worker s) (alerts s) (open_boxes s).

Definition set_next_worker (v : nat) (s : App) : App :=
  mk_App (is_monitoring s) (previous_status s) (history s) (_monitor_job s)
    (status_label s) (start_btn s) (stop_btn s) (history_box s)
    (history_box_state s) (after_queue s) (next_job s) (clock s)
    (workers s) v (alerts s) (open_boxes s).

Definition set_alerts (v : list alert) (s : App) : App :=
  mk_App (is_monitoring s) (previous_status s) (history s) (_monitor_job s)
    (status_label s) (start_btn s) (stop_btn s) (history_box s)
    (history_box_state s) (after_queue s) (next_job s) (clock s)
    (workers s) (next_worker s) v (open_boxes s).

Definition set_open_boxes (v : list suspended_call) (s : App) : App :=
  mk_App (is_monitoring s) (previous_status s) (history s) (_monitor_job s)
    (status_label s) (start_btn s) (stop_btn s) (history_box s)
    (history_box_state s) (after_queue s) (next_job s) (clock s)
    (workers s) (next_worker s) (alerts s) v.

(** Statements are state transformers; [a ;; b] runs [a], then [b]. *)
Definition seq (a b : App -> App) : App -> App := fun s => b (a s).
Notation "a ;; b" := (seq a b) (at level 61, right associativity).

(** ** Toolkit operations used by the class *)

(** [root.after(ms, callback, *args)]: queue the callback, return its id. *)
Definition root_after (ms : Z) (cb : callback) (s : App) : nat * App :=
  let id := next_job s in
  (id,
   set_next_job (S id)
     (set_after_queue (after_queue s ++ [mk_job id (clock s + ms) cb]) s)).

(** [root.after_cancel(id)]: the job, if still queued, will not run. *)
Definition root_after_cancel (id : nat) (s : App) : App :=
  set_after_queue
    (filter (fun j => negb (Nat.eqb (job_id j) id)) (after_queue s)) s.

(** [threading.Thread(target=self._check_connection, daemon=True).start()] *)
Definition thread_start (s : App) : App :=
  let id := next_worker s in
  set_next_worker (S id)
    (set_workers (workers s ++ [mk_worker id (clock s)]) s).

(** [history_box.insert(tk.END, text)]: a text widget ignores insertions
    while its state is [disabled]. *)
Definition history_box_insert (text : string) (s : App) : App :=
  match history_box_state s with
  | normal => set_history_box (history_box s ++ text) s
  | disabled => s
  end.

(** [messagebox.showinfo(title, msg)] / [showwarning]: the box is shown
    and the caller waits in it. *)
Definition messagebox (k : alert_kind) (title msg : string)
    (caller : suspended_call) (s : App) : App :=
  set_open_boxes (caller :: open_boxes s)
    (set_alerts (alerts s ++ [mk_alert k title msg]) s).

(** ** Class [NetworkStatusMonitor] *)

Definition CHECK_URL : string := "https://www.google.com".
Definition CHECK_TIMEOUT : Z := 3.
Definition CHECK_INTERVAL : Z := 3000.

Definition newline : string := String (ascii_of_nat 10) EmptyString.

(** State after [__init__] (which ends with [_build_ui]) at time [0]. *)
Definition init : App :=
  {| is_monitoring := false;
     previous_status := None;
     history := [];
     _monitor_job := None;
     status_label := ("⏸  Not Monitoring", "#a6adc8");
     start_btn := normal;
     stop_btn := disabled;
     history_box := "";
     history_box_state := disabled;
     after_queue := [];
     next_job := O;
     clock := 0;
     workers := [];
     next_worker := O;
     alerts := [];
     open_boxes := [] |}.

(** [history_box.see(tk.END)] only scrolls the view and is left out. *)
Definition _log_history (message : string) : App -> App :=
  (fun s => set_history (history s ++ [message]) s) ;;
  set_history_box_state normal ;;
  history_box_insert (message ++ newline) ;;
  set_history_box_state disabled.

Definition _schedule_check (s : App) : App :=
  if negb (is_monitoring s) then s
  else
    let s1 := thread_start s in
    let (job, s2) := root_after CHECK_INTERVAL cb_schedule_check s1 in
    set_monitor_job (Some job) s2.

Definition start_monitoring (s : App) : App :=
  if is_monitoring s then s
  else
    (set_is_monitoring true ;;
     set_previous_status None ;;
     set_start_btn disabled ;;
     set_stop_btn normal ;;
     _log_history "Monitoring started." ;;
     _schedule_check) s.

Definition stop_monitoring : App -> App :=
  set_is_monitoring false ;;
  (fun s =>
     match _monitor_job s with
     | Some job => set_monitor_job None (root_after_cancel job s)
     | None => s
     end) ;;
  set_start_btn normal ;;
  set_stop_btn disabled ;;
  set_status_label ("⏸  Not Monitoring", "#a6adc8") ;;
  _log_history "Monitoring stopped.".

(** The [try] block of [_check_connection]: the value bound to [is_online],
    or the exception that the [except] clause lets through. *)
Definition is_online_of (get : Requests.outcome) : result bool :=
  match get with
  | Requests.Response status_code => Ok (status_code <? 400)
  | Requests.Raises e =>
      if Requests.issubclass e Requests.RequestException then Ok false
      else Raise e
  end.

(** [_check_connection], run by a worker thread; [get] is what
    [requests.get(CHECK_URL, timeout=CHECK_TIMEOUT)] did. *)
Definition _check_connection (get : Requests.outcome) (s : App) : result App :=
  match is_online_of get with
  | Ok is_online => Ok (snd (root_after 0 (cb_update_status is_online) s))
  | Raise e => Raise e
  end.

(** Python's [is None] and [!=] on the values the program compares: a
    [bool] against an [Optional[bool]]; [None] differs from both booleans. *)
Definition is_None {A : Type} (o : option A) : bool :=
  match o with None => true | Some _ => false end.

Definition py_ne (a : bool) (o : option bool) : bool :=
  match o with
  | None => true
  | Some b => negb (Bool.eqb a b)
  end.

(** The last statement of [_update_status]:
    [self.previous_status = is_online]. *)
Definition store_reading (is_online : bool) : App -> App :=
  set_previous_status (Some is_online).

(** [_update_status] up to its return or, in the two branches that show a
    message box, up to that box. *)
Definition _update_status (timestamp : string) (is_online : bool) : App -> App :=
  (if is_online
   then set_status_label ("🟢  Online", "#a6e3a1")
   else set_status_label ("🔴  Offline", "#f38ba8")) ;;
  (fun s =>
     if negb (is_None (previous_status s)) && py_ne is_online (previous_status s)
     then
       if is_online then
         let msg := "Internet reconnected at " ++ timestamp in
         (_log_history ("🟢 RECONNECTED  — " ++ timestamp) ;;
          messagebox showinfo "Network Status" msg
            (in_update_status is_online)) s
       else
         let msg := "Internet disconnected at " ++ timestamp in
         (_log_history ("🔴 DISCONNECTED — " ++ timestamp) ;;
          messagebox showwarning "Network Status" msg
            (in_update_status is_online)) s
     else if is_None (previous_status s) then
       let status_text := if is_online then "Online" else "Offline" in
       (_log_history ("Initial status: " ++ status_text ++ " — " ++ timestamp) ;;
        store_reading is_online) s
     else store_reading is_online s).

(** The rest of a suspended call, run when its message box is dismissed:
    for [_update_status], the statement after the [if]. *)
Definition resume (c : suspended_call) : App -> App :=
  match c with
  | in_update_status is_online => store_reading is_online
  end.

(** ** The main loop

    What can happen to a running application, one event at a time. *)
Inductive event : Type :=
| Elapse (ms : Z)                              (* time passes *)
| Call_start                                   (* start_monitoring() *)
| Call_stop                                    (* stop_monitoring() *)
| Fire (id : nat) (now : string)               (* the loop runs a due job *)
| Worker_done (id : nat) (get : Requests.outcome) (* a request ends *)
| Dismiss.                         (* the user closes the innermost box *)

Definition find_job (id : nat) (s : App) : option after_job :=
  find (fun j => Nat.eqb (job_id j) id) (after_queue s).

Definition find_worker (id : nat) (s : App) : option worker :=
  find (fun w => Nat.eqb (worker_id w) id) (workers s).

Definition remove_worker (id : nat) (s : App) : App :=
  set_workers
    (filter (fun w => negb (Nat.eqb (worker_id w) id)) (workers s)) s.

Definition run_callback (now : string) (cb : callback) : App -> App :=
  match cb with
  | cb_schedule_check => _schedule_check
  | cb_update_status is_online => _update_status now is_online
  end.

Definition no_box_open (s : App) : bool :=
  match open_boxes s with
  | [] => true
  | _ :: _ => false
  end.

(** One event; [None] when the event cannot happen in [s]: a negative
    delay, a job that is not queued or not yet due, an unknown worker, a
    button pressed while a message box holds the grab, no box to dismiss.
    A worker whose [_check_connection] lets an exception escape ends
    without posting anything. *)
Definition step (s : App) (e : event) : option App :=
  match e with
  | Elapse ms =>
      if 0 <=? ms then Some (set_clock (clock s + ms) s) else None
  | Call_start =>
      if no_box_open s then Some (start_monitoring s) else None
  | Call_stop =>
      if no_box_open s then Some (stop_monitoring s) else None
  | Fire id now =>
      match find_job id s with
      | Some j =>
          if job_due j <=? clock s
          then Some (run_callback now (job_cb j) (root_after_cancel id s))
          else None
      | None => None
      end
  | Worker_done id get =>
      match find_worker id s with
      | Some _ =>
          match _check_connection get (remove_worker id s) with
          | Ok s' => Some s'
          | Raise _ => Some (remove_worker id s)
          end
      | None => None
      end
  | Dismiss =>
      match open_boxes s with
      | c :: rest => Some (resume c (set_open_boxes rest s))
      | [] => None
      end
  end.

Fixpoint run (s : App) (evs : list event) : option App :=
  match evs with
  | [] => Some s
  | e :: evs' =>
      match step s e with
      | Some s' => run s' evs'
      | None => None
      end
  end.

(** The reachability result that event [e] hands to [_update_status] in
    state [s], if it does. *)
Definition delivered (s : App) (e : event) : option bool :=
  match e with
  | Fire id _ =>
      match find_job id s with
      | Some j =>
          if job_due j <=? clock s then
            match job_cb j with
            | cb_update_status is_online => Some is_online
            | cb_schedule_check => None
            end
          else None
      | None => None
      end
  | _ => None
  end.

(** [start_monitoring()] called while not monitoring: the call that passes
    the guard. *)
Definition restarts (s : App) (e : event) : bool :=
  match e with
  | Call_start => negb (is_monitoring s)
  | _ => false
  end.

(** No result is handed to [_update_status] along the run of [evs]. *)
Fixpoint no_result (s : App) (evs : list event) : bool :=
  match evs with
  | [] => true
  | e :: evs' =>
      is_None (delivered s e) &&
      match step s e with
      | Some s' => no_result s' evs'
      | None => true
      end
  end.

(** Neither a result nor a passing [start_monitoring()] along the run. *)
Fixpoint no_result_no_restart (s : App) (evs : list event) : bool :=
  match evs with
  | [] => true
  | e :: evs' =>
      is_None (delivered s e) && negb (restarts s e) &&
      match step s e with
      | Some s' => no_result_no_restart s' evs'
      | None => true
      end
  end.

Definition is_schedule_job (j : after_job) : bool :=
  match job_cb j with
  | cb_schedule_check => true
  | cb_update_status _ => false
  end.

(** The queued periodic triggers: pending calls of [_schedule_check]. *)
Definition pending_checks (s : App) : list after_job :=
  filter is_schedule_job (after_queue s).

(** Lines written to the history by [_update_status]. *)
Definition initial_line (is_online : bool) (timestamp : string) : string :=
  "Initial status: " ++ (if is_online then "Online" else "Offline")
    ++ " — " ++ timestamp.

Definition reconnected_line (timestamp : string) : string :=
  "🟢 RECONNECTED  — " ++ timestamp.

Definition disconnected_line (timestamp : string) : string :=
  "🔴 DISCONNECTED — " ++ timestamp.

Definition reconnected_alert (timestamp : string) : alert :=
  mk_alert showinfo "Network Status" ("Internet reconnected at " ++ timestamp).

Definition disconnected_alert (timestamp : string) : alert :=
  mk_alert showwarning "Network Status"
    ("Internet disconnected at " ++ timestamp).

Definition online_label : string * string := ("🟢  Online", "#a6e3a1").
Definition offline_label : string * string := ("🔴  Offline", "#f38ba8").
Definition idle_label : string * string := ("⏸  Not Monitoring", "#a6adc8").

Definition label_for (is_online : bool) : string * string :=
  if is_online then online_label else offline_label.

(** The state reached by a run, or the starting state if some event of the
    run cannot happen. *)
Definition after_events (s : App) (evs : list event) : App :=
  match run s evs with
  | Some s' => s'
  | None => s
  end.

(** All queued job ids are below the next id that [root.after] hands out. *)
Definition ids_fresh (s : App) : bool :=
  forallb (fun j => Nat.ltb (job_id j) (next_job s)) (after_queue s).

(** At most one periodic trigger is queued, and when one is queued it is
    the job that [_monitor_job] names and monitoring is on. *)
Definition trigger_inv (s : App) : Prop :=
  pending_checks s = [] \/
  exists j, pending_checks s = [j] /\
            _monitor_job s = Some (job_id j) /\
            is_monitoring s = true.

(** What a worker leaves in the [after] queue for the main loop. *)
Definition post_update (is_online : bool) (s : App) : App :=
  snd (root_after 0 (cb_update_status is_online) s).

(** Example runs, used to exercise the statements below on concrete
    states. *)
Definition first_probe_online : list event :=
  [Worker_done 0 (Requests.Response 200)].

Definition online_reading : App :=
  after_events init
    [Call_start; Worker_done 0 (Requests.Response 200); Fire 1 "10:00:00"].

Definition second_probe_times_out : list event :=
  [Elapse 3000; Fire 0 "10:00:03";
   Worker_done 1 (Requests.Raises Requests.ConnectTimeout)].

Definition second_probe_succeeds : list event :=
  [Elapse 3000; Fire 0 "10:00:03";
   Worker_done 1 (Requests.Response 301)].

(** A run in which [stop_monitoring()] is called while the second probe is
    in flight, the state in which the result of that probe waits in the
    [after] queue, the state in which the main loop has run it up to its
    message box, and the state after that box has been dismissed. *)
Definition late_result_run : list event :=
  [Call_start; Worker_done 0 (Requests.Response 200); Fire 1 "10:00:00";
   Elapse 3000; Fire 0 "10:00:03"; Call_stop;
   Worker_done 1 (Requests.Raises Requests.ConnectionError)].

Definition late_result_pending : App := after_events init late_result_run.

Definition late_result_boxed : App :=
  after_events late_result_pending [Fire 3 "10:00:05"].

Definition late_result_processed : App :=
  after_events late_result_boxed [Dismiss].

(** A run in which the first probe succeeds and the second fails; the
    state in which the second result waits in the [after] queue; and the
    state in which the main loop has run it up to its warning box, which
    is left open. *)
Definition second_result_run : list event :=
  [Call_start; Worker_done 0 (Requests.Response 200); Fire 1 "10:00:00";
   Elapse 3000; Fire 0 "10:00:03";
   Worker_done 1 (Requests.Raises Requests.ConnectionError)].

Definition second_result_pending : App := after_events init second_result_run.

Definition box_left_open : App :=
  after_events second_result_pending [Fire 3 "10:00:04"].

(** With the box still open the next timer launches the third probe,
    which fails too, or succeeds; its result waits in the [after] queue
    as job 5. *)
Definition third_probe_fails_run : list event :=
  [Elapse 3000; Fire 2 "10:00:06";
   Worker_done 2 (Requests.Raises Requests.ConnectionError)].

Definition third_probe_fails : App :=
  after_events box_left_open third_probe_fails_run.

Definition third_probe_succeeds_run : list event :=
  [Elapse 3000; Fire 2 "10:00:06"; Worker_done 2 (Requests.Response 200)].

Definition third_probe_succeeds : App :=
  after_events box_left_open third_probe_succeeds_run.

(** The reading [b] is stored, or is about to be: no box is open and
    [previous_status] holds [b], or the only open box belongs to the call
    that was given [b]. *)
Definition holds_reading (b : bool) (s : App) : Prop :=
  (open_boxes s = [] /\ previous_status s = Some b) \/
  open_boxes s = [in_update_status b].

(** ** Observations used by the invariants of the application *)

(** The text that the history box shows for a history: one line per
    entry. *)
Fixpoint render_history (h : list string) : string :=
  match h with
  | [] => EmptyString
  | m :: h' => m ++ newline ++ render_history h'
  end.

(** The history box shows the history and is read-only. *)
Definition box_inv (s : App) : Prop :=
  history_box s = render_history (history s) /\
  history_box_state s = disabled.

(** Exactly one of the two buttons can be pressed: Stop while monitoring,
    Start otherwise. *)
Definition buttons_inv (s : App) : Prop :=
  if is_monitoring s
  then start_btn s = disabled /\ stop_btn s = normal
  else start_btn s = normal /\ stop_btn s = disabled.

Definition is_start (e : event) : bool :=
  match e with
  | Call_start => true
  | _ => false
  end.

(** No [start_monitoring()] among the events. *)
Definition no_start (evs : list event) : bool :=
  forallb (fun e => negb (is_start e)) evs.

(** [strip_prefix p s]: what follows [p] in [s], if [s] starts with [p]. *)
Fixpoint strip_prefix (p s : string) : option string :=
  match p with
  | EmptyString => Some s
  | String a p' =>
      match s with
      | EmptyString => None
      | String b s' => if Ascii.eqb a b then strip_prefix p' s' else None
      end
  end.

(** The message box that goes with a history line, for the two kinds of
    lines that come with one. *)
Definition alert_of_line (line : string) : option alert :=
  match strip_prefix "🟢 RECONNECTED  — " line with
  | Some timestamp => Some (reconnected_alert timestamp)
  | None =>
      match strip_prefix "🔴 DISCONNECTED — " line with
      | Some timestamp => Some (disconnected_alert timestamp)
      | None => None
      end
  end.

Fixpoint alerts_of_history (h : list string) : list alert :=
  match h with
  | [] => []
  | line :: h' =>
      match alert_of_line line with
      | Some a => a :: alerts_of_history h'
      | None => alerts_of_history h'
      end
  end.

(** The message boxes shown are those of the history lines. *)
Definition log_inv (s : App) : Prop :=
  alerts s = alerts_of_history (history s).

(** Kinds of history lines, and how many lines of a kind a history has. *)
Definition is_started_line (line : string) : bool :=
  String.eqb line "Monitoring started.".

Definition is_initial_line (line : string) : bool :=
  match strip_prefix "Initial status: " line with
  | Some _ => true
  | None => false
  end.

Definition count_lines (f : string -> bool) (h : list string) : nat :=
  List.length (filter f h).

Definition is_update_job (j : after_job) : bool :=
  negb (is_schedule_job j).

(** Either nothing has been started yet and no result can arrive, or the
    initial readings logged, plus the one still to come when
    [previous_status] is unset, are no more than the starts logged. *)
Definition sessions_inv (s : App) : Prop :=
  (count_lines is_started_line (history s) = O /\
   count_lines is_initial_line (history s) = O /\
   previous_status s = None /\
   is_monitoring s = false /\
   workers s = [] /\
   filter is_update_job (after_queue s) = []) \/
  (count_lines is_initial_line (history s)
   + (if is_None (previous_status s) then 1 else 0)
   <= count_lines is_started_line (history s))%nat.

(** The queued jobs have pairwise different ids. *)
Definition ids_unique (s : App) : Prop :=
  NoDup (map job_id (after_queue s)).

(** While monitoring, exactly one call of [_schedule_check] is queued; it
    is the job that [_monitor_job] names and it is due within
    [CHECK_INTERVAL]. *)
Definition armed_inv (s : App) : Prop :=
  is_monitoring s = true ->
  exists j, pending_checks s = [j] /\
            _monitor_job s = Some (job_id j) /\
            job_due j <= clock s + CHECK_INTERVAL.

(** * Properties *)

(** ** What each operation leaves alone *)

Lemma log_history_history (m : string) (s : App) :
  history (_log_history m s) = (history s ++ [m])%list.
Proof. reflexivity. Qed.

Lemma log_history_box (m : string) (s : App) :
  history_box (_log_history m s) = history_box s ++ m ++ newline.
Proof. reflexivity. Qed.

Lemma log_history_frame (m : string) (s : App) :
  is_monitoring (_log_history m s) = is_monitoring s /\
  previous_status (_log_history m s) = previous_status s /\
  _monitor_job (_log_history m s) = _monitor_job s /\
  status_label (_log_history m s) = status_label s /\
  after_queue (_log_history m s) = after_queue s /\
  workers (_log_history m s) = workers s /\
  alerts (_log_history m s) = alerts s.
Proof. repeat split. Qed.

Lemma schedule_check_frame (s : App) :
  is_monitoring (_schedule_check s) = is_monitoring s /\
  previous_status (_schedule_check s) = previous_status s /\
  history (_schedule_check s) = history s /\
  status_label (_schedule_check s) = status_label s /\
  alerts (_schedule_check s) = alerts s.
Proof.
  unfold _schedule_check.
  destruct (is_monitoring s) eqn:Hm; cbn; rewrite ?Hm; repeat split.
Qed.

Lemma schedule_check_running (s : App) :
  is_monitoring s = true ->
  _schedule_check s =
  set_monitor_job (Some (next_job s))
    (snd (root_after CHECK_INTERVAL cb_schedule_check (thread_start s))).
Proof. intros Hm. unfold _schedule_check. rewrite Hm. reflexivity. Qed.

Lemma schedule_check_idle (s : App) :
  is_monitoring s = false -> _schedule_check s = s.
Proof. intros Hm. unfold _schedule_check. rewrite Hm. reflexivity. Qed.

Lemma start_monitoring_running (s : App) :
  is_monitoring s = true -> start_monitoring s = s.
Proof. intros Hm. unfold start_monitoring. rewrite Hm. reflexivity. Qed.

Lemma start_monitoring_idle (s : App) :
  is_monitoring s = false ->
  start_monitoring s =
  _schedule_check
    (_log_history "Monitoring started."
       (set_stop_btn normal
          (set_start_btn disabled
             (set_previous_status None (set_is_monitoring true s))))).
Proof. intros Hm. unfold start_monitoring. rewrite Hm. reflexivity. Qed.

Lemma start_monitoring_is_monitoring (s : App) :
  is_monitoring (start_monitoring s) = true.
Proof.
  destruct (is_monitoring s) eqn:Hm.
  - rewrite start_monitoring_running; assumption.
  - rewrite start_monitoring_idle by assumption.
    rewrite (proj1 (schedule_check_frame _)). reflexivity.
Qed.

Lemma start_monitoring_previous_status (s : App) :
  previous_status (start_monitoring s) =
  if is_monitoring s then previous_status s else None.
Proof.
  destruct (is_monitoring s) eqn:Hm.
  - rewrite start_monitoring_running; auto.
  - rewrite start_monitoring_idle by assumption.
    rewrite (proj1 (proj2 (schedule_check_frame _))). reflexivity.
Qed.

Lemma start_monitoring_history (s : App) :
  is_monitoring s = false ->
  history (start_monitoring s) = (history s ++ ["Monitoring started."])%list.
Proof.
  intros Hm. rewrite start_monitoring_idle by assumption.
  rewrite (proj1 (proj2 (proj2 (schedule_check_frame _)))). reflexivity.
Qed.

Lemma start_monitoring_alerts (s : App) :
  alerts (start_monitoring s) = alerts s.
Proof.
  destruct (is_monitoring s) eqn:Hm.
  - rewrite start_monitoring_running; auto.
  - rewrite start_monitoring_idle by assumption.
    rewrite (proj2 (proj2 (proj2 (proj2 (schedule_check_frame _))))).
    reflexivity.
Qed.

Lemma stop_monitoring_frame (s : App) :
  is_monitoring (stop_monitoring s) = false /\
  previous_status (stop_monitoring s) = previous_status s /\
  history (stop_monitoring s) = (history s ++ ["Monitoring stopped."])%list /\
  status_label (stop_monitoring s) = idle_label /\
  _monitor_job (stop_monitoring s) = None /\
  workers (stop_monitoring s) = workers s /\
  alerts (stop_monitoring s) = alerts s.
Proof.
  unfold stop_monitoring, seq. cbn.
  destruct (_monitor_job s) eqn:Hj; cbn; rewrite ?Hj;
    repeat apply conj; reflexivity.
Qed.

Lemma stop_monitoring_after_queue (s : App) :
  after_queue (stop_monitoring s) =
  match _monitor_job s with
  | Some job => filter (fun j => negb (Nat.eqb (job_id j) job)) (after_queue s)
  | None => after_queue s
  end.
Proof.
  unfold stop_monitoring, seq. cbn. destruct (_monitor_job s); reflexivity.
Qed.

(** ** [_update_status], branch by branch *)

Lemma update_status_previous (now : string) (b : bool) (s : App) :
  previous_status (_update_status now b s)
  = match previous_status s with
    | Some p => Some p
    | None => Some b
    end.
Proof.
  unfold _update_status, seq.
  destruct b, (previous_status s) as [[|]|] eqn:Hp; cbn; rewrite ?Hp;
    cbn; rewrite ?Hp; reflexivity.
Qed.

Lemma update_status_open_boxes (now : string) (b : bool) (s : App) :
  open_boxes (_update_status now b s)
  = match previous_status s with
    | Some p =>
        if Bool.eqb b p then open_boxes s
        else in_update_status b :: open_boxes s
    | None => open_boxes s
    end.
Proof.
  unfold _update_status, seq.
  destruct b, (previous_status s) as [[|]|] eqn:Hp; cbn; rewrite ?Hp;
    cbn; rewrite ?Hp; reflexivity.
Qed.

(** Every call stores its reading at once, or waits at its box with it. *)
Lemma update_status_stores_or_waits (now : string) (b : bool) (s : App) :
  (previous_status (_update_status now b s) = Some b /\
   open_boxes (_update_status now b s) = open_boxes s) \/
  open_boxes (_update_status now b s) = in_update_status b :: open_boxes s.
Proof.
  rewrite update_status_previous, update_status_open_boxes.
  destruct (previous_status s) as [p|]; [|left; split; reflexivity].
  destruct b, p; cbn; auto.
Qed.

Lemma update_status_label (now : string) (b : bool) (s : App) :
  status_label (_update_status now b s) = label_for b.
Proof.
  unfold _update_status, seq.
  destruct b, (previous_status s) as [[|]|] eqn:Hp; cbn; rewrite ?Hp;
    cbn; rewrite ?Hp; reflexivity.
Qed.

Lemma update_status_frame (now : string) (b : bool) (s : App) :
  is_monitoring (_update_status now b s) = is_monitoring s /\
  _monitor_job (_update_status now b s) = _monitor_job s /\
  after_queue (_update_status now b s) = after_queue s /\
  workers (_update_status now b s) = workers s.
Proof.
  unfold _update_status, seq.
  destruct b, (previous_status s) as [[|]|] eqn:Hp; cbn; rewrite ?Hp;
    repeat apply conj; reflexivity.
Qed.

Lemma update_status_initial (now : string) (b : bool) (s : App) :
  previous_status s = None ->
  history (_update_status now b s) = (history s ++ [initial_line b now])%list /\
  alerts (_update_status now b s) = alerts s.
Proof.
  intros Hp. unfold _update_status, seq.
  destruct b; cbn; rewrite Hp; cbn; split; reflexivity.
Qed.

Lemma update_status_unchanged (now : string) (b : bool) (s : App) :
  previous_status s = Some b ->
  _update_status now b s = set_status_label (label_for b) s.
Proof.
  intros Hp. destruct s; cbn in Hp; subst. destruct b; reflexivity.
Qed.

Lemma update_status_became_online (now : string) (s : App) :
  previous_status s = Some false ->
  history (_update_status now true s)
    = (history s ++ [reconnected_line now])%list /\
  alerts (_update_status now true s)
    = (alerts s ++ [reconnected_alert now])%list.
Proof.
  intros Hp. unfold _update_status, seq. cbn. rewrite Hp. cbn.
  split; reflexivity.
Qed.

Lemma update_status_became_offline (now : string) (s : App) :
  previous_status s = Some true ->
  history (_update_status now false s)
    = (history s ++ [disconnected_line now])%list /\
  alerts (_update_status now false s)
    = (alerts s ++ [disconnected_alert now])%list.
Proof.
  intros Hp. unfold _update_status, seq. cbn. rewrite Hp. cbn.
  split; reflexivity.
Qed.

Lemma update_status_history_grows (now : string) (b : bool) (s : App) :
  exists added, history (_update_status now b s) = (history s ++ added)%list.
Proof.
  destruct (previous_status s) as [p|] eqn:Hp.
  - destruct b, p.
    + exists []. rewrite update_status_unchanged by assumption.
      cbn. now rewrite app_nil_r.
    + eexists. apply update_status_became_online; assumption.
    + eexists. apply update_status_became_offline; assumption.
    + exists []. rewrite update_status_unchanged by assumption.
      cbn. now rewrite app_nil_r.
  - eexists. apply update_status_initial; assumption.
Qed.

(** ** One event of the main loop *)

Lemma delivered_fire (s : App) (id : nat) (now : string) (b : bool) :
  delivered s (Fire id now) = Some b ->
  step s (Fire id now) = Some (_update_status now b (root_after_cancel id s)).
Proof.
  cbn. destruct (find_job id s) as [j|]; [|discriminate].
  destruct (job_due j <=? clock s); [|discriminate].
  destruct (job_cb j); [discriminate|].
  intros H. injection H as ->. reflexivity.
Qed.

Lemma check_connection_frame (get : Requests.outcome) (s s' : App) :
  _check_connection get s = Ok s' ->
  is_monitoring s' = is_monitoring s /\
  previous_status s' = previous_status s /\
  history s' = history s /\
  status_label s' = status_label s /\
  workers s' = workers s /\
  alerts s' = alerts s.
Proof.
  unfold _check_connection. destruct (is_online_of get); [|discriminate].
  intros H. injection H as <-. repeat apply conj; reflexivity.
Qed.

Lemma no_box_open_nil (s : App) :
  no_box_open s = true <-> open_boxes s = [].
Proof.
  unfold no_box_open. destruct (open_boxes s); split; intros H;
    try reflexivity; discriminate.
Qed.

Lemma schedule_check_open_boxes (s : App) :
  open_boxes (_schedule_check s) = open_boxes s.
Proof. unfold _schedule_check. destruct (is_monitoring s); reflexivity. Qed.

Lemma start_monitoring_open_boxes (s : App) :
  open_boxes (start_monitoring s) = open_boxes s.
Proof.
  destruct (is_monitoring s) eqn:Hm.
  - rewrite start_monitoring_running; auto.
  - rewrite start_monitoring_idle by assumption.
    rewrite schedule_check_open_boxes. reflexivity.
Qed.

Lemma stop_monitoring_open_boxes (s : App) :
  open_boxes (stop_monitoring s) = open_boxes s.
Proof.
  unfold stop_monitoring, seq. cbn. destruct (_monitor_job s); reflexivity.
Qed.

(** What one event does, as a call of one of the operations. *)
Lemma step_cases (s : App) (e : event) (s' : App) :
  step s e = Some s' ->
  (exists ms, 0 <= ms /\ s' = set_clock (clock s + ms) s) \/
  (open_boxes s = [] /\ s' = start_monitoring s) \/
  (open_boxes s = [] /\ s' = stop_monitoring s) \/
  (exists id, s' = _schedule_check (root_after_cancel id s)) \/
  (exists id now b, s' = _update_status now b (root_after_cancel id s)) \/
  (exists id b, s' = post_update b (remove_worker id s)) \/
  (exists id, s' = remove_worker id s) \/
  (exists c rest,
      open_boxes s = c :: rest /\ s' = resume c (set_open_boxes rest s)).
Proof.
  destruct e as [ms| | |id now|id get| ]; cbn [step].
  - destruct (0 <=? ms) eqn:Hms; [|discriminate]. intros H.
    injection H as <-. left. exists ms. split; [now apply Z.leb_le|].
    reflexivity.
  - destruct (no_box_open s) eqn:Hbox; [|discriminate]. intros H.
    injection H as <-. right. left. split; [|reflexivity].
    now apply no_box_open_nil.
  - destruct (no_box_open s) eqn:Hbox; [|discriminate]. intros H.
    injection H as <-. right. right. left. split; [|reflexivity].
    now apply no_box_open_nil.
  - destruct (find_job id s) as [j|]; [|discriminate].
    destruct (job_due j <=? clock s); [|discriminate].
    intros H. injection H as <-. destruct (job_cb j) as [|b].
    + right. right. right. left. exists id. reflexivity.
    + right. right. right. right. left. exists id, now, b. reflexivity.
  - destruct (find_worker id s); [|discriminate].
    unfold _check_connection.
    destruct (is_online_of get) as [b|x]; intros H; injection H as <-.
    + right. right. right. right. right. left. exists id, b. reflexivity.
    + right. right. right. right. right. right. left. exists id.
      reflexivity.
  - destruct (open_boxes s) as [|c rest] eqn:Hbox; [discriminate|].
    intros H. injection H as <-.
    right. right. right. right. right. right. right.
    exists c, rest. split; reflexivity.
Qed.

Lemma run_invariant (P : App -> Prop) :
  (forall s e s', step s e = Some s' -> P s -> P s') ->
  forall evs s s', run s evs = Some s' -> P s -> P s'.
Proof.
  intros Hstep. induction evs as [|e evs IH]; intros s s'; cbn [run].
  - intros H. injection H as <-. exact (fun H => H).
  - destruct (step s e) as [s1|] eqn:Hs; [|discriminate].
    intros Hr HP. apply (IH s1 s' Hr). exact (Hstep s e s1 Hs HP).
Qed.

Lemma step_history_grows (s : App) (e : event) (s' : App) :
  step s e = Some s' ->
  exists added, history s' = (history s ++ added)%list.
Proof.
  intros Hs.
  destruct (step_cases s e s' Hs)
    as [[ms [_ ->]]|[[_ ->]|[[_ ->]|[[id ->]|[[id [now [b ->]]]
       |[[id [b ->]]|[[id ->]|[c [rest [_ ->]]]]]]]]]].
  - exists []. rewrite app_nil_r. reflexivity.
  - destruct (is_monitoring s) eqn:Hm.
    + exists []. rewrite start_monitoring_running by assumption.
      now rewrite app_nil_r.
    + eexists. apply start_monitoring_history. assumption.
  - eexists. apply stop_monitoring_frame.
  - exists []. rewrite (proj1 (proj2 (proj2 (schedule_check_frame _)))).
    rewrite app_nil_r. reflexivity.
  - apply (update_status_history_grows now b (root_after_cancel id s)).
  - exists []. rewrite app_nil_r. reflexivity.
  - exists []. rewrite app_nil_r. reflexivity.
  - exists []. rewrite app_nil_r. destruct c. reflexivity.
Qed.

(** ** Runs *)

Lemma run_history_grows (evs : list event) :
  forall s s', run s evs = Some s' ->
  exists added, history s' = (history s ++ added)%list.
Proof.
  induction evs as [|e evs IH]; intros s s'; cbn.
  - intros H. injection H as <-. exists []. now rewrite app_nil_r.
  - destruct (step s e) as [s1|] eqn:Hs; [|discriminate].
    intros Hr. apply IH in Hr as [l2 H2].
    apply step_history_grows in Hs as [l1 H1].
    exists (l1 ++ l2)%list. now rewrite H2, H1, app_assoc.
Qed.

(** Until a result is delivered, an unset [previous_status] stays unset
    and no box is opened. *)
Lemma step_unset_until_result (s : App) (e : event) (s' : App) :
  step s e = Some s' ->
  delivered s e = None ->
  previous_status s = None /\ open_boxes s = [] ->
  previous_status s' = None /\ open_boxes s' = [].
Proof.
  intros Hs Hd [Hp Hb].
  destruct e as [ms| | |id now|id get| ]; cbn [step delivered] in Hs, Hd.
  - destruct (0 <=? ms); [|discriminate]. injection Hs as <-. now split.
  - destruct (no_box_open s); [|discriminate]. injection Hs as <-.
    rewrite start_monitoring_previous_status, start_monitoring_open_boxes.
    rewrite Hp. split; [destruct (is_monitoring s); reflexivity|exact Hb].
  - destruct (no_box_open s); [|discriminate]. injection Hs as <-.
    rewrite stop_monitoring_open_boxes.
    rewrite (proj1 (proj2 (stop_monitoring_frame s))). now split.
  - destruct (find_job id s) as [j|]; [|discriminate].
    destruct (job_due j <=? clock s); [|discriminate].
    injection Hs as <-. destruct (job_cb j); [|discriminate].
    cbn [run_callback]. rewrite schedule_check_open_boxes.
    rewrite (proj1 (proj2 (schedule_check_frame _))). now split.
  - destruct (find_worker id s); [|discriminate].
    destruct (_check_connection get (remove_worker id s)) as [s1|x] eqn:Hc;
      injection Hs as <-.
    + unfold _check_connection in Hc.
      destruct (is_online_of get); [|discriminate].
      injection Hc as <-. now split.
    + now split.
  - rewrite Hb in Hs. discriminate.
Qed.

Lemma run_unset_until_result (evs : list event) :
  forall s s', run s evs = Some s' ->
  no_result s evs = true ->
  previous_status s = None /\ open_boxes s = [] ->
  previous_status s' = None /\ open_boxes s' = [].
Proof.
  induction evs as [|e evs IH]; intros s s'; cbn [run no_result].
  - intros H _ Hp. injection H as <-. exact Hp.
  - destruct (step s e) as [s1|] eqn:Hs; [|discriminate].
    intros Hr Hq Hp. apply andb_prop in Hq as [Hd Hq].
    apply (IH s1 s' Hr Hq).
    apply (step_unset_until_result s e s1 Hs); [|exact Hp].
    destruct (delivered s e); [discriminate|reflexivity].
Qed.

(** A reading that is stored or about to be stays so until the next
    result or restart. *)
Lemma update_status_holds_reading (now : string) (b : bool) (s : App) :
  open_boxes s = [] -> holds_reading b (_update_status now b s).
Proof.
  intros Hb. unfold holds_reading.
  destruct (update_status_stores_or_waits now b s) as [[Hp Ho]|Ho];
    rewrite Ho, Hb; [left; split; [reflexivity|exact Hp]|right; reflexivity].
Qed.

Lemma step_holds_reading (b : bool) (s : App) (e : event) (s' : App) :
  step s e = Some s' ->
  delivered s e = None -> restarts s e = false ->
  holds_reading b s -> holds_reading b s'.
Proof.
  intros Hs Hd Hr Hh.
  destruct e as [ms| | |id now|id get| ];
    cbn [step delivered restarts] in Hs, Hd, Hr.
  - destruct (0 <=? ms); [|discriminate]. injection Hs as <-. exact Hh.
  - destruct (no_box_open s); [|discriminate]. injection Hs as <-.
    apply negb_false_iff in Hr.
    rewrite start_monitoring_running by exact Hr. exact Hh.
  - destruct (no_box_open s); [|discriminate]. injection Hs as <-.
    unfold holds_reading. rewrite stop_monitoring_open_boxes.
    rewrite (proj1 (proj2 (stop_monitoring_frame s))). exact Hh.
  - destruct (find_job id s) as [j|]; [|discriminate].
    destruct (job_due j <=? clock s); [|discriminate].
    injection Hs as <-. destruct (job_cb j); [|discriminate].
    cbn [run_callback]. unfold holds_reading.
    rewrite schedule_check_open_boxes.
    rewrite (proj1 (proj2 (schedule_check_frame _))). exact Hh.
  - destruct (find_worker id s); [|discriminate].
    destruct (_check_connection get (remove_worker id s)) as [s1|x] eqn:Hc;
      injection Hs as <-.
    + unfold _check_connection in Hc.
      destruct (is_online_of get); [|discriminate].
      injection Hc as <-. exact Hh.
    + exact Hh.
  - destruct Hh as [[Hb _]|Hb]; rewrite Hb in Hs; [discriminate|].
    injection Hs as <-. left. split; reflexivity.
Qed.

Lemma run_holds_reading (b : bool) (evs : list event) :
  forall s s', run s evs = Some s' ->
  no_result_no_restart s evs = true ->
  holds_reading b s -> holds_reading b s'.
Proof.
  induction evs as [|e evs IH]; intros s s'; cbn [run no_result_no_restart].
  - intros H _ Hh. injection H as <-. exact Hh.
  - destruct (step s e) as [s1|] eqn:Hs; [|discriminate].
    intros Hr Hq Hh. apply andb_prop in Hq as [Hd Hq].
    apply andb_prop in Hd as [Hd Hn].
    apply (IH s1 s' Hr Hq).
    apply (step_holds_reading b s e s1 Hs); [ | |exact Hh].
    + destruct (delivered s e); [discriminate|reflexivity].
    + now apply negb_true_iff.
Qed.

Lemma lines_differ (now : string) :
  reconnected_line now <> disconnected_line now.
Proof. unfold reconnected_line, disconnected_line. cbn. discriminate. Qed.

(** ** The State Tracker *)

(** C1. After a [start_monitoring()] that begins monitoring (on a fresh
    application or after a [stop_monitoring()]; the Start button can be
    pressed only while no message box is open), whatever happens next,
    the first result handed to [_update_status] is processed as the
    initial reading: the history gains exactly the line
    [Initial status: Online|Offline — <timestamp>] and no message box is
    shown, whatever [previous_status] was before the start. *)
Theorem first_result_after_start_is_initial
    (s0 s : App) (evs : list event) (id : nat) (now : string)
    (is_online : bool) :
  is_monitoring s0 = false ->
  open_boxes s0 = [] ->
  run (start_monitoring s0) evs = Some s ->
  no_result (start_monitoring s0) evs = true ->
  delivered s (Fire id now) = Some is_online ->
  exists s',
    step s (Fire id now) = Some s' /\
    history s' = (history s ++ [initial_line is_online now])%list /\
    alerts s' = alerts s /\
    open_boxes s' = [].
Proof.
  intros Hidle Hbox Hrun Hquiet Hres.
  assert (Hunset : previous_status s = None /\ open_boxes s = []).
  { apply (run_unset_until_result _ _ _ Hrun Hquiet).
    rewrite start_monitoring_previous_status, Hidle.
    rewrite start_monitoring_open_boxes. now split. }
  destruct Hunset as [Hp Hb].
  eexists. split; [apply delivered_fire; exact Hres|].
  destruct (update_status_initial now is_online (root_after_cancel id s) Hp)
    as [Hh Ha].
  split; [exact Hh|]. split; [exact Ha|].
  rewrite update_status_open_boxes.
  change (previous_status (root_after_cancel id s)) with (previous_status s).
  rewrite Hp. exact Hb.
Qed.

Lemma first_result_after_start_is_initial_witness :
  exists s',
    step (after_events (start_monitoring init) first_probe_online)
         (Fire 1 "2024-05-01 10:00:03") = Some s' /\
    history s' =
      (history (after_events (start_monitoring init) first_probe_online)
       ++ [initial_line true "2024-05-01 10:00:03"])%list /\
    alerts s' =
      alerts (after_events (start_monitoring init) first_probe_online) /\
    open_boxes s' = [].
Proof.
  apply (first_result_after_start_is_initial init
           (after_events (start_monitoring init) first_probe_online)
           first_probe_online 1%nat "2024-05-01 10:00:03" true);
    vm_compute; reflexivity.
Defined.

(** C2 (the code departs from the claim).  A transition branch of
    [_update_status] shows its message box before it stores its reading,
    and results keep being processed while the box is open.  In the run
    below the second probe fails and its DISCONNECTED box is left open;
    the third probe succeeds.  The two consecutive results differ, but
    the later one is compared with the reading stored before the earlier
    one: it is processed as unchanged, no RECONNECTED line is written and
    no info box is shown.  When the box is then dismissed the earlier
    reading is stored over the later one. *)
Theorem differing_result_behind_open_box_is_not_logged :
  run init second_result_run = Some second_result_pending /\
  delivered second_result_pending (Fire 3 "10:00:04") = Some false /\
  step second_result_pending (Fire 3 "10:00:04") = Some box_left_open /\
  open_boxes box_left_open = [in_update_status false] /\
  previous_status box_left_open = Some true /\
  run box_left_open third_probe_succeeds_run = Some third_probe_succeeds /\
  no_result_no_restart box_left_open third_probe_succeeds_run = true /\
  delivered third_probe_succeeds (Fire 5 "10:00:07") = Some true /\
  step third_probe_succeeds (Fire 5 "10:00:07")
  = Some (after_events third_probe_succeeds [Fire 5 "10:00:07"]) /\
  history (after_events third_probe_succeeds [Fire 5 "10:00:07"])
  = history third_probe_succeeds /\
  alerts (after_events third_probe_succeeds [Fire 5 "10:00:07"])
  = alerts third_probe_succeeds /\
  status_label (after_events third_probe_succeeds [Fire 5 "10:00:07"])
  = online_label /\
  step (after_events third_probe_succeeds [Fire 5 "10:00:07"]) Dismiss
  = Some (after_events third_probe_succeeds [Fire 5 "10:00:07"; Dismiss]) /\
  previous_status
    (after_events third_probe_succeeds [Fire 5 "10:00:07"; Dismiss])
  = Some false.
Proof. vm_compute. repeat split. Qed.

(** C3 (the code departs from the claim).  Same defect as for C2.  In the
    run below the second probe fails and its DISCONNECTED box is left
    open; the third probe fails too.  The two consecutive results are
    equal, but the later one is compared with the reading stored before
    the earlier one: it is processed as a transition again, a second
    DISCONNECTED line is appended and a second warning box is shown. *)
Theorem equal_result_behind_open_box_alerts_again :
  run init second_result_run = Some second_result_pending /\
  delivered second_result_pending (Fire 3 "10:00:04") = Some false /\
  step second_result_pending (Fire 3 "10:00:04") = Some box_left_open /\
  open_boxes box_left_open = [in_update_status false] /\
  previous_status box_left_open = Some true /\
  run box_left_open third_probe_fails_run = Some third_probe_fails /\
  no_result_no_restart box_left_open third_probe_fails_run = true /\
  delivered third_probe_fails (Fire 5 "10:00:07") = Some false /\
  step third_probe_fails (Fire 5 "10:00:07")
  = Some (after_events third_probe_fails [Fire 5 "10:00:07"]) /\
  history (after_events third_probe_fails [Fire 5 "10:00:07"])
  = (history third_probe_fails ++ [disconnected_line "10:00:07"])%list /\
  alerts (after_events third_probe_fails [Fire 5 "10:00:07"])
  = (alerts third_probe_fails ++ [disconnected_alert "10:00:07"])%list /\
  open_boxes (after_events third_probe_fails [Fire 5 "10:00:07"])
  = [in_update_status false; in_update_status false].
Proof. vm_compute. repeat split. Qed.

(** ** The Prober *)

Lemma Ok_injective {A : Type} (a b : A) : Ok a = Ok b -> a = b.
Proof. intros H. now inversion H. Qed.

Lemma post_update_injective (a b : bool) (s : App) :
  post_update a s = post_update b s -> a = b.
Proof.
  intros H. apply (f_equal after_queue) in H. cbn in H.
  apply app_inv_head in H. injection H as H. exact H.
Qed.

Lemma issubclass_raised_for (f : Requests.failure) :
  Requests.issubclass (Requests.raised_for f) Requests.RequestException
  = true.
Proof. destruct f; reflexivity. Qed.

(** C4. The probe reports reachable exactly when [requests.get] returned a
    response whose status code is below 400.  Every network failure of the
    request (connect or read timeout, DNS failure, refused connection, TLS
    failure, malformed or undecodable response), and more generally every
    exception that is a [RequestException], is reported as unreachable by
    the same [False]; the worker then posts the result and ends normally,
    no exception escapes it. *)
Theorem probe_reachable_iff_status_below_400 :
  (forall code s,
      _check_connection (Requests.Response code) s
      = Ok (post_update (code <? 400) s)) /\
  (forall get s,
      _check_connection get s = Ok (post_update true s)
      <-> exists code, get = Requests.Response code /\ code < 400) /\
  (forall f s,
      _check_connection (Requests.Raises (Requests.raised_for f)) s
      = Ok (post_update false s)) /\
  (forall e s,
      Requests.issubclass e Requests.RequestException = true ->
      _check_connection (Requests.Raises e) s = Ok (post_update false s)).
Proof.
  repeat apply conj.
  - reflexivity.
  - intros get s. split.
    + destruct get as [code|e]; unfold _check_connection, is_online_of.
      * intros H. apply Ok_injective, post_update_injective in H.
        exists code. split; [reflexivity|]. now apply Z.ltb_lt.
      * destruct (Requests.issubclass e Requests.RequestException);
          [|discriminate].
        intros H. apply Ok_injective, post_update_injective in H.
        discriminate.
    + intros [code [-> Hlt]]. unfold _check_connection. cbn.
      apply Z.ltb_lt in Hlt. rewrite Hlt. reflexivity.
  - intros f s. unfold _check_connection, is_online_of.
    rewrite issubclass_raised_for. reflexivity.
  - intros e s He. unfold _check_connection, is_online_of.
    rewrite He. reflexivity.
Qed.

Lemma probe_reachable_iff_status_below_400_witness :
  Requests.issubclass Requests.ProxyError Requests.RequestException = true /\
  _check_connection (Requests.Raises Requests.ProxyError) init
  = Ok (post_update false init).
Proof.
  split; [reflexivity|].
  apply (proj2 (proj2 (proj2 probe_reachable_iff_status_below_400))).
  reflexivity.
Defined.

(** ** [previous_status] over the life of the application *)



(** ** The history log *)

(** C8. The history only grows at its end: [_log_history] appends its
    message, and after any event of the main loop, hence after any run,
    the earlier history is a prefix of the later one. *)
Theorem history_is_append_only :
  (forall m s, history (_log_history m s) = (history s ++ [m])%list) /\
  (forall s e s',
      step s e = Some s' ->
      exists added, history s' = (history s ++ added)%list) /\
  (forall s evs s',
      run s evs = Some s' ->
      exists added, history s' = (history s ++ added)%list).
Proof.
  repeat apply conj.
  - reflexivity.
  - exact step_history_grows.
  - intros s evs. revert s. exact (run_history_grows evs).
Qed.

Lemma history_is_append_only_witness :
  exists added,
    history (after_events online_reading second_probe_times_out)
    = (history online_reading ++ added)%list.
Proof.
  apply (proj2 (proj2 history_is_append_only)
           online_reading second_probe_times_out
           (after_events online_reading second_probe_times_out)).
  vm_compute; reflexivity.
Defined.

(** C10. The control operations write to the history themselves: a
    [start_monitoring()] that begins monitoring appends
    [Monitoring started.]; every [stop_monitoring()] appends
    [Monitoring stopped.], also when monitoring is already off, so that
    two calls in a row append the entry twice. *)
Theorem control_operations_are_logged :
  (forall s,
      is_monitoring s = false ->
      history (start_monitoring s)
      = (history s ++ ["Monitoring started."])%list) /\
  (forall s,
      history (stop_monitoring s)
      = (history s ++ ["Monitoring stopped."])%list) /\
  (forall s,
      is_monitoring s = false ->
      is_monitoring (stop_monitoring s) = false /\
      history (stop_monitoring s)
      = (history s ++ ["Monitoring stopped."])%list) /\
  (forall s,
      history (stop_monitoring (stop_monitoring s))
      = (history s ++ ["Monitoring stopped."; "Monitoring stopped."])%list).
Proof.
  split; [exact start_monitoring_history|].
  split; [intros s; apply stop_monitoring_frame|].
  split; [intros s _; split; apply stop_monitoring_frame|].
  intros s.
  rewrite (proj1 (proj2 (proj2 (stop_monitoring_frame _)))).
  rewrite (proj1 (proj2 (proj2 (stop_monitoring_frame _)))).
  rewrite <- app_assoc. reflexivity.
Qed.

Lemma control_operations_are_logged_witness :
  is_monitoring init = false /\
  history (start_monitoring init) = ([] ++ ["Monitoring started."])%list /\
  history (stop_monitoring init) = ([] ++ ["Monitoring stopped."])%list.
Proof.
  split; [reflexivity|]. split.
  - apply (proj1 control_operations_are_logged init). reflexivity.
  - apply (proj1 (proj2 (proj2 control_operations_are_logged)) init).
    reflexivity.
Defined.

(** ** The periodic trigger *)

Lemma filter_swap {A : Type} (f g : A -> bool) (l : list A) :
  filter f (filter g l) = filter g (filter f l).
Proof.
  induction l as [|a l IH]; [reflexivity|]. cbn.
  destruct (g a) eqn:Hg, (f a) eqn:Hf; cbn; rewrite ?Hg, ?Hf, IH;
    reflexivity.
Qed.

Lemma pending_checks_cancel (id : nat) (s : App) :
  pending_checks (root_after_cancel id s)
  = filter (fun j => negb (Nat.eqb (job_id j) id)) (pending_checks s).
Proof. unfold pending_checks. cbn. apply filter_swap. Qed.

Lemma pending_checks_post_update (b : bool) (s : App) :
  pending_checks (post_update b s) = pending_checks s.
Proof.
  unfold pending_checks. cbn. rewrite filter_app. cbn. apply app_nil_r.
Qed.

Lemma pending_checks_schedule_check (s : App) :
  is_monitoring s = true ->
  pending_checks (_schedule_check s)
  = (pending_checks s
     ++ [mk_job (next_job s) (clock s + CHECK_INTERVAL) cb_schedule_check])%list.
Proof.
  intros Hm. rewrite schedule_check_running by assumption.
  unfold pending_checks. cbn. rewrite filter_app. reflexivity.
Qed.

Lemma trigger_inv_ext (s s' : App) :
  pending_checks s' = pending_checks s ->
  _monitor_job s' = _monitor_job s ->
  is_monitoring s' = is_monitoring s ->
  trigger_inv s -> trigger_inv s'.
Proof. unfold trigger_inv. intros -> -> ->. exact (fun H => H). Qed.

Lemma trigger_inv_idle (s : App) :
  trigger_inv s -> is_monitoring s = false -> pending_checks s = [].
Proof.
  intros [H|[j [_ [_ Hm]]]] Hidle; [exact H|congruence].
Qed.

Lemma trigger_inv_cancel (id : nat) (s : App) :
  trigger_inv s -> trigger_inv (root_after_cancel id s).
Proof.
  unfold trigger_inv. rewrite pending_checks_cancel.
  intros [H|[j [H [Hj Hm]]]]; rewrite H; cbn; [left; reflexivity|].
  destruct (Nat.eqb (job_id j) id); cbn; [left; reflexivity|].
  right. exists j. repeat split; assumption.
Qed.

Lemma trigger_inv_schedule_check (s : App) :
  is_monitoring s = true -> pending_checks s = [] ->
  trigger_inv (_schedule_check s).
Proof.
  intros Hm Hp. right. eexists. split.
  - rewrite pending_checks_schedule_check, Hp by assumption. reflexivity.
  - rewrite schedule_check_running by assumption.
    split; [reflexivity|exact Hm].
Qed.

Lemma trigger_inv_start (s : App) :
  trigger_inv s -> trigger_inv (start_monitoring s).
Proof.
  intros Hinv. destruct (is_monitoring s) eqn:Hm.
  - rewrite start_monitoring_running; assumption.
  - rewrite start_monitoring_idle by assumption.
    apply trigger_inv_schedule_check; [reflexivity|].
    exact (trigger_inv_idle s Hinv Hm).
Qed.

Lemma trigger_inv_stop (s : App) :
  trigger_inv s -> trigger_inv (stop_monitoring s).
Proof.
  intros Hinv. left. unfold pending_checks.
  rewrite stop_monitoring_after_queue.
  destruct Hinv as [H|[j [H [Hj Hm]]]].
  - destruct (_monitor_job s); [|exact H].
    rewrite filter_swap. fold (pending_checks s). rewrite H. reflexivity.
  - rewrite Hj, filter_swap. fold (pending_checks s). rewrite H. cbn.
    rewrite Nat.eqb_refl. reflexivity.
Qed.

Lemma find_job_some (id : nat) (s : App) (j : after_job) :
  find_job id s = Some j -> In j (after_queue s) /\ job_id j = id.
Proof.
  unfold find_job. intros H. apply find_some in H as [Hin Heq].
  split; [exact Hin|]. now apply Nat.eqb_eq.
Qed.

Lemma trigger_inv_step (s : App) (e : event) (s' : App) :
  step s e = Some s' -> trigger_inv s -> trigger_inv s'.
Proof.
  destruct e as [ms| | |id now|id get| ]; cbn [step].
  - destruct (0 <=? ms); [|discriminate]. intros H. injection H as <-.
    apply trigger_inv_ext; reflexivity.
  - destruct (no_box_open s); [|discriminate].
    intros H. injection H as <-. apply trigger_inv_start.
  - destruct (no_box_open s); [|discriminate].
    intros H. injection H as <-. apply trigger_inv_stop.
  - destruct (find_job id s) as [j|] eqn:Hf; [|discriminate].
    destruct (job_due j <=? clock s); [|discriminate].
    intros H Hinv. injection H as <-.
    destruct (job_cb j) as [|b] eqn:Hcb; cbn.
    + apply find_job_some in Hf as [Hin Hid].
      assert (Hpend : In j (pending_checks s)).
      { apply filter_In. split; [exact Hin|].
        unfold is_schedule_job. now rewrite Hcb. }
      destruct Hinv as [H|[j' [H [Hj Hm]]]]; rewrite H in Hpend;
        [contradiction|].
      destruct Hpend as [->|[]].
      apply trigger_inv_schedule_check; [exact Hm|].
      rewrite pending_checks_cancel, H. cbn.
      rewrite Hid, Nat.eqb_refl. reflexivity.
    + apply (trigger_inv_ext (root_after_cancel id s)).
      * unfold pending_checks.
        now rewrite (proj1 (proj2 (proj2 (update_status_frame _ _ _)))).
      * apply update_status_frame.
      * apply update_status_frame.
      * apply trigger_inv_cancel. exact Hinv.
  - destruct (find_worker id s); [|discriminate].
    unfold _check_connection.
    destruct (is_online_of get) as [b|x]; intros H; injection H as <-.
    + apply trigger_inv_ext; try reflexivity.
      apply (pending_checks_post_update b (remove_worker id s)).
    + apply trigger_inv_ext; reflexivity.
  - destruct (open_boxes s) as [|c rest]; [discriminate|].
    intros H. injection H as <-. destruct c.
    apply trigger_inv_ext; reflexivity.
Qed.

Lemma trigger_inv_run (evs : list event) :
  forall s s', run s evs = Some s' -> trigger_inv s -> trigger_inv s'.
Proof.
  induction evs as [|e evs IH]; intros s s'; cbn.
  - intros H. injection H as <-. exact (fun H => H).
  - destruct (step s e) as [s1|] eqn:Hs; [|discriminate].
    intros Hr Hinv. apply (IH s1 s' Hr).
    exact (trigger_inv_step _ _ _ Hs Hinv).
Qed.

(** C7. [start_monitoring()] does nothing while monitoring is on: the
    state, hence the [after] queue, is returned as it was, so calling it
    twice in a row is the same as calling it once; and in every state that
    the application can reach at most one call of [_schedule_check] is
    queued. *)
Theorem start_is_idempotent_while_running :
  (forall s, is_monitoring s = true -> start_monitoring s = s) /\
  (forall s, start_monitoring (start_monitoring s) = start_monitoring s) /\
  (forall evs s,
      run init evs = Some s -> (List.length (pending_checks s) <= 1)%nat).
Proof.
  split; [exact start_monitoring_running|]. split.
  - intros s. apply start_monitoring_running.
    apply start_monitoring_is_monitoring.
  - intros evs s Hrun.
    assert (Hinv : trigger_inv s).
    { apply (trigger_inv_run evs init s Hrun). left. reflexivity. }
    destruct Hinv as [H|[j [H _]]]; rewrite H; cbn; lia.
Qed.

Lemma start_is_idempotent_while_running_witness :
  is_monitoring (after_events online_reading second_probe_times_out) = true /\
  start_monitoring (after_events online_reading second_probe_times_out)
  = after_events online_reading second_probe_times_out.
Proof.
  split; [vm_compute; reflexivity|].
  apply (proj1 start_is_idempotent_while_running).
  vm_compute; reflexivity.
Defined.

(** ** Probe workers in flight *)

Lemma schedule_check_workers (s : App) :
  workers (_schedule_check s)
  = (workers s
     ++ if is_monitoring s then [mk_worker (next_worker s) (clock s)]
        else [])%list.
Proof.
  unfold _schedule_check. destruct (is_monitoring s); cbn.
  - reflexivity.
  - now rewrite app_nil_r.
Qed.

Lemma start_monitoring_workers (s : App) :
  exists launched, workers (start_monitoring s) = (workers s ++ launched)%list.
Proof.
  destruct (is_monitoring s) eqn:Hm.
  - exists []. rewrite start_monitoring_running by assumption.
    now rewrite app_nil_r.
  - eexists. rewrite start_monitoring_idle by assumption.
    rewrite schedule_check_workers. reflexivity.
Qed.

Lemma step_keeps_workers (s : App) (e : event) (s' : App) (w : worker) :
  step s e = Some s' ->
  In w (workers s) ->
  (forall get, e <> Worker_done (worker_id w) get) ->
  In w (workers s').
Proof.
  destruct e as [ms| | |id now|id get| ]; cbn [step].
  - destruct (0 <=? ms); [|discriminate]. intros H. injection H as <-.
    intros Hin _. exact Hin.
  - destruct (no_box_open s); [|discriminate].
    intros H Hin _. injection H as <-.
    destruct (start_monitoring_workers s) as [l ->].
    apply in_or_app. left. exact Hin.
  - destruct (no_box_open s); [|discriminate].
    intros H Hin _. injection H as <-.
    now rewrite (proj1 (proj2 (proj2 (proj2 (proj2 (proj2
                   (stop_monitoring_frame s))))))).
  - destruct (find_job id s) as [j|]; [|discriminate].
    destruct (job_due j <=? clock s); [|discriminate].
    intros H Hin _. injection H as <-.
    destruct (job_cb j); cbn [run_callback].
    + rewrite schedule_check_workers. apply in_or_app. left. exact Hin.
    + now rewrite (proj2 (proj2 (proj2 (update_status_frame _ _ _)))).
  - destruct (find_worker id s); [|discriminate].
    intros H Hin Hother.
    assert (Hkept : In w (workers (remove_worker id s))).
    { cbn. apply filter_In. split; [exact Hin|].
      apply negb_true_iff, Nat.eqb_neq. intros Heq.
      apply (Hother get). now rewrite Heq. }
    destruct (_check_connection get (remove_worker id s)) as [s1|x] eqn:Hc;
      injection H as <-.
    + apply check_connection_frame in Hc.
      now rewrite (proj1 (proj2 (proj2 (proj2 (proj2 Hc))))).
    + exact Hkept.
  - destruct (open_boxes s) as [|c rest]; [discriminate|].
    intros H Hin _. injection H as <-. destruct c. exact Hin.
Qed.

Lemma ids_fresh_forall (s : App) :
  ids_fresh s = true <->
  Forall (fun j => (job_id j < next_job s)%nat) (after_queue s).
Proof.
  unfold ids_fresh. rewrite forallb_forall, Forall_forall.
  split; intros H j Hj; apply Nat.ltb_lt, H, Hj.
Qed.

Lemma find_fresh_job (q : list after_job) (j : after_job) :
  Forall (fun x => (job_id x < job_id j)%nat) q ->
  find (fun x => Nat.eqb (job_id x) (job_id j)) (q ++ [j]) = Some j.
Proof.
  induction 1 as [|x q Hx _ IH]; cbn.
  - now rewrite Nat.eqb_refl.
  - destruct (Nat.eqb_spec (job_id x) (job_id j)) as [Heq|_]; [lia|].
    exact IH.
Qed.

Lemma ids_fresh_root_after (ms : Z) (cb : callback) (s : App) :
  ids_fresh s = true -> ids_fresh (snd (root_after ms cb s)) = true.
Proof.
  rewrite !ids_fresh_forall. cbn. intros H. apply Forall_app. split.
  - eapply Forall_impl; [|exact H]. cbn. intros; lia.
  - constructor; [cbn; lia|constructor].
Qed.

Lemma ids_fresh_cancel (id : nat) (s : App) :
  ids_fresh s = true -> ids_fresh (root_after_cancel id s) = true.
Proof.
  rewrite !ids_fresh_forall. cbn. rewrite !Forall_forall.
  intros H j Hj. apply filter_In in Hj as [Hj _]. exact (H j Hj).
Qed.

Lemma ids_fresh_ext (s s' : App) :
  after_queue s' = after_queue s -> next_job s' = next_job s ->
  ids_fresh s = true -> ids_fresh s' = true.
Proof. unfold ids_fresh. intros -> ->. exact (fun H => H). Qed.

Lemma ids_fresh_schedule_check (s : App) :
  ids_fresh s = true -> ids_fresh (_schedule_check s) = true.
Proof.
  intros H. destruct (is_monitoring s) eqn:Hm;
    [rewrite schedule_check_running by assumption
    |rewrite schedule_check_idle by assumption; exact H].
  apply (ids_fresh_ext
           (snd (root_after CHECK_INTERVAL cb_schedule_check
                   (thread_start s)))); try reflexivity.
  apply ids_fresh_root_after.
  apply (ids_fresh_ext s); [reflexivity|reflexivity|exact H].
Qed.

Lemma ids_fresh_update_status (now : string) (b : bool) (s : App) :
  ids_fresh s = true -> ids_fresh (_update_status now b s) = true.
Proof.
  apply ids_fresh_ext.
  - apply update_status_frame.
  - unfold _update_status, seq.
    destruct b, (previous_status s) as [[|]|] eqn:Hp; cbn; rewrite ?Hp;
      reflexivity.
Qed.

Lemma ids_fresh_step (s : App) (e : event) (s' : App) :
  step s e = Some s' -> ids_fresh s = true -> ids_fresh s' = true.
Proof.
  destruct e as [ms| | |id now|id get| ]; cbn [step].
  - destruct (0 <=? ms); [|discriminate]. intros H. injection H as <-.
    apply ids_fresh_ext; reflexivity.
  - destruct (no_box_open s); [|discriminate].
    intros H Hf. injection H as <-. destruct (is_monitoring s) eqn:Hm.
    + rewrite start_monitoring_running; assumption.
    + rewrite start_monitoring_idle by assumption.
      apply ids_fresh_schedule_check.
      apply (ids_fresh_ext s); [reflexivity|reflexivity|exact Hf].
  - destruct (no_box_open s); [|discriminate].
    intros H Hf. injection H as <-.
    rewrite ids_fresh_forall in *.
    rewrite stop_monitoring_after_queue.
    assert (Hn : next_job (stop_monitoring s) = next_job s).
    { unfold stop_monitoring, seq. cbn. destruct (_monitor_job s);
        reflexivity. }
    rewrite Hn. destruct (_monitor_job s); [|exact Hf].
    rewrite Forall_forall in *. intros j Hj.
    apply filter_In in Hj as [Hj _]. exact (Hf j Hj).
  - destruct (find_job id s) as [j|]; [|discriminate].
    destruct (job_due j <=? clock s); [|discriminate].
    intros H Hf. injection H as <-.
    apply (ids_fresh_cancel id) in Hf.
    destruct (job_cb j); cbn [run_callback].
    + now apply ids_fresh_schedule_check.
    + now apply ids_fresh_update_status.
  - destruct (find_worker id s); [|discriminate].
    unfold _check_connection.
    destruct (is_online_of get) as [b|x]; intros H Hf; injection H as <-.
    + apply (ids_fresh_root_after 0 (cb_update_status b)
               (remove_worker id s)).
      apply (ids_fresh_ext s); [reflexivity|reflexivity|exact Hf].
    + apply (ids_fresh_ext s); [reflexivity|reflexivity|exact Hf].
  - destruct (open_boxes s) as [|c rest]; [discriminate|].
    intros H Hf. injection H as <-. destruct c.
    apply (ids_fresh_ext s); [reflexivity|reflexivity|exact Hf].
Qed.

Lemma ids_fresh_run (evs : list event) :
  forall s s', run s evs = Some s' -> ids_fresh s = true -> ids_fresh s' = true.
Proof.
  induction evs as [|e evs IH]; intros s s'; cbn -[ids_fresh].
  - intros H. injection H as <-. exact (fun H => H).
  - destruct (step s e) as [s1|] eqn:Hs; [|discriminate].
    intros Hr Hf. apply (IH s1 s' Hr). exact (ids_fresh_step _ _ _ Hs Hf).
Qed.

Lemma schedule_check_clock (s : App) :
  clock (_schedule_check s) = clock s.
Proof. unfold _schedule_check. destruct (is_monitoring s); reflexivity. Qed.

Lemma overlapping_cycle (s : App) (now : string) :
  is_monitoring s = true ->
  ids_fresh s = true ->
  exists s2,
    run (_schedule_check s) [Elapse CHECK_INTERVAL; Fire (next_job s) now]
    = Some s2 /\
    workers s2
    = (workers s
       ++ [mk_worker (next_worker s) (clock s);
           mk_worker (S (next_worker s)) (clock s + CHECK_INTERVAL)])%list /\
    clock s2 = clock s + CHECK_INTERVAL.
Proof.
  intros Hm Hfresh.
  set (armed := mk_job (next_job s) (clock s + CHECK_INTERVAL)
                  cb_schedule_check).
  set (s1 := set_clock (clock s + CHECK_INTERVAL) (_schedule_check s)).
  assert (Hs1 : step (_schedule_check s) (Elapse CHECK_INTERVAL) = Some s1).
  { unfold s1. rewrite schedule_check_running by assumption. reflexivity. }
  assert (Hfind : find_job (next_job s) s1 = Some armed).
  { unfold find_job, s1. rewrite schedule_check_running by assumption.
    apply ids_fresh_forall in Hfresh.
    exact (find_fresh_job (after_queue s) armed Hfresh). }
  assert (Hs2 : step s1 (Fire (next_job s) now)
                = Some (_schedule_check (root_after_cancel (next_job s) s1))).
  { cbn [step]. rewrite Hfind.
    replace (job_due armed <=? clock s1) with true; [reflexivity|].
    symmetry. unfold s1. cbn. apply Z.leb_refl. }
  eexists. split; [cbn [run]; rewrite Hs1, Hs2; reflexivity|].
  split.
  - rewrite schedule_check_workers. unfold s1.
    rewrite schedule_check_running by assumption. cbn.
    rewrite Hm, <- app_assoc. reflexivity.
  - rewrite schedule_check_clock. reflexivity.
Qed.

Lemma pending_check_is_monitoring (s : App) (id : nat) (j : after_job) :
  trigger_inv s ->
  find_job id s = Some j -> job_cb j = cb_schedule_check ->
  is_monitoring s = true.
Proof.
  intros Hinv Hf Hcb. apply find_job_some in Hf as [Hin _].
  assert (Hpend : In j (pending_checks s)).
  { apply filter_In. split; [exact Hin|].
    unfold is_schedule_job. now rewrite Hcb. }
  destruct Hinv as [H|[j' [_ [_ Hm]]]]; [|exact Hm].
  rewrite H in Hpend. contradiction.
Qed.

Lemma run_cons (s s1 : App) (e : event) (evs : list event) :
  step s e = Some s1 -> run s (e :: evs) = run s1 evs.
Proof. intros H. cbn [run]. rewrite H. reflexivity. Qed.

Lemma cycle_after_timer
    (evs : list event) (s : App) (id : nat) (j : after_job)
    (now now' : string) :
  run init evs = Some s ->
  find_job id s = Some j -> job_cb j = cb_schedule_check ->
  job_due j <= clock s ->
  exists s2,
    run s [Fire id now; Elapse 3000; Fire (next_job s) now'] = Some s2 /\
    workers s2
    = (workers s
       ++ [mk_worker (next_worker s) (clock s);
           mk_worker (S (next_worker s)) (clock s + 3000)])%list.
Proof.
  intros Hrun Hf Hcb Hdue.
  assert (Hfresh : ids_fresh s = true)
    by (apply (ids_fresh_run evs init s Hrun); reflexivity).
  assert (Hinv : trigger_inv s)
    by (apply (trigger_inv_run evs init s Hrun); left; reflexivity).
  pose proof (pending_check_is_monitoring s id j Hinv Hf Hcb) as Hm.
  assert (Hstep : step s (Fire id now)
                  = Some (_schedule_check (root_after_cancel id s))).
  { cbn [step]. rewrite Hf, Hcb. apply Z.leb_le in Hdue. rewrite Hdue.
    reflexivity. }
  destruct (overlapping_cycle (root_after_cancel id s) now' Hm
              (ids_fresh_cancel id s Hfresh)) as [s2 [Hr [Hw _]]].
  exists s2. split; [|exact Hw].
  rewrite (run_cons _ _ _ _ Hstep). exact Hr.
Qed.

Lemma cycle_after_start (evs : list event) (s : App) (now' : string) :
  run init evs = Some s ->
  is_monitoring s = false ->
  open_boxes s = [] ->
  exists s2,
    run s [Call_start; Elapse 3000; Fire (next_job s) now'] = Some s2 /\
    workers s2
    = (workers s
       ++ [mk_worker (next_worker s) (clock s);
           mk_worker (S (next_worker s)) (clock s + 3000)])%list.
Proof.
  intros Hrun Hm Hbox.
  assert (Hfresh : ids_fresh s = true)
    by (apply (ids_fresh_run evs init s Hrun); reflexivity).
  assert (Hstep : step s Call_start = Some (start_monitoring s)).
  { cbn [step]. apply no_box_open_nil in Hbox. rewrite Hbox. reflexivity. }
  pose proof (start_monitoring_idle s Hm) as Hstart.
  set (s0 := _log_history "Monitoring started."
               (set_stop_btn normal
                  (set_start_btn disabled
                     (set_previous_status None
                        (set_is_monitoring true s))))) in *.
  destruct (overlapping_cycle s0 now' eq_refl
              (ids_fresh_ext s s0 eq_refl eq_refl Hfresh))
    as [s2 [Hr [Hw _]]].
  exists s2. split; [|exact Hw].
  rewrite (run_cons s (start_monitoring s) Call_start _ Hstep).
  rewrite Hstart. exact Hr.
Qed.

(** C9. [_schedule_check] launches the worker and queues the next trigger
    in the same call, due [CHECK_INTERVAL] = 3000 ms later and without
    regard to the workers in flight.  So in every cycle of a run, whether
    begun by a timer or by pressing Start, if the worker has not
    finished when the interval has elapsed, the trigger fires and a second
    worker is launched beside the first one.  Nothing but a worker's own
    completion takes it off the list of workers in flight: no call, timer
    or other worker does, [stop_monitoring()] included. *)
Theorem next_cycle_is_armed_at_launch :
  (forall s,
      is_monitoring s = true ->
      workers (_schedule_check s)
      = (workers s ++ [mk_worker (next_worker s) (clock s)])%list /\
      after_queue (_schedule_check s)
      = (after_queue s
         ++ [mk_job (next_job s) (clock s + 3000) cb_schedule_check])%list /\
      _monitor_job (_schedule_check s) = Some (next_job s)) /\
  (forall evs s id j now now',
      run init evs = Some s ->
      find_job id s = Some j -> job_cb j = cb_schedule_check ->
      job_due j <= clock s ->
      exists s2,
        run s [Fire id now; Elapse 3000; Fire (next_job s) now'] = Some s2 /\
        workers s2
        = (workers s
           ++ [mk_worker (next_worker s) (clock s);
               mk_worker (S (next_worker s)) (clock s + 3000)])%list) /\
  (forall evs s now',
      run init evs = Some s ->
      is_monitoring s = false ->
      open_boxes s = [] ->
      exists s2,
        run s [Call_start; Elapse 3000; Fire (next_job s) now'] = Some s2 /\
        workers s2
        = (workers s
           ++ [mk_worker (next_worker s) (clock s);
               mk_worker (S (next_worker s)) (clock s + 3000)])%list) /\
  (forall s e s' w,
      step s e = Some s' ->
      In w (workers s) ->
      (forall get, e <> Worker_done (worker_id w) get) ->
      In w (workers s')) /\
  (forall s, workers (stop_monitoring s) = workers s).
Proof.
  split; [|split; [|split; [|split]]].
  - intros s Hm. rewrite schedule_check_running by assumption.
    repeat split.
  - exact cycle_after_timer.
  - exact cycle_after_start.
  - exact step_keeps_workers.
  - intros s. apply stop_monitoring_frame.
Qed.

Lemma next_cycle_is_armed_at_launch_witness :
  exists s2,
    run init [Call_start; Elapse 3000; Fire (next_job init) "10:00:03"]
    = Some s2 /\
    workers s2
    = (workers init
       ++ [mk_worker (next_worker init) (clock init);
           mk_worker (S (next_worker init)) (clock init + 3000)])%list.
Proof.
  apply (proj1 (proj2 (proj2 next_cycle_is_armed_at_launch))
           [] init "10:00:03"); reflexivity.
Defined.

(** ** Results that arrive after [stop_monitoring()] *)

(** C6 (the code departs from the claim).  [_update_status] does not look
    at [is_monitoring].  In the run below the second probe is still in
    flight when [stop_monitoring()] is called; its result is delivered
    afterwards, while monitoring is off, and is processed like any other:
    the label set by [stop_monitoring()] is overwritten, a DISCONNECTED
    line is appended to the history, a warning box is shown and, when
    that box is dismissed, [previous_status] is updated. *)
Theorem late_result_is_processed_while_idle :
  run init late_result_run = Some late_result_pending /\
  is_monitoring late_result_pending = false /\
  status_label late_result_pending = idle_label /\
  previous_status late_result_pending = Some true /\
  delivered late_result_pending (Fire 3 "10:00:05") = Some false /\
  step late_result_pending (Fire 3 "10:00:05") = Some late_result_boxed /\
  is_monitoring late_result_boxed = false /\
  status_label late_result_boxed = offline_label /\
  history late_result_boxed
  = (history late_result_pending ++ [disconnected_line "10:00:05"])%list /\
  alerts late_result_boxed
  = (alerts late_result_pending ++ [disconnected_alert "10:00:05"])%list /\
  open_boxes late_result_boxed = [in_update_status false] /\
  step late_result_boxed Dismiss = Some late_result_processed /\
  is_monitoring late_result_processed = false /\
  status_label late_result_processed = offline_label /\
  previous_status late_result_processed = Some false.
Proof. vm_compute. repeat split. Qed.

(** * Further properties of the application *)

(** ** Widgets *)

Lemma schedule_check_widgets (s : App) :
  start_btn (_schedule_check s) = start_btn s /\
  stop_btn (_schedule_check s) = stop_btn s /\
  history_box (_schedule_check s) = history_box s /\
  history_box_state (_schedule_check s) = history_box_state s.
Proof.
  unfold _schedule_check. destruct (is_monitoring s); repeat apply conj;
    reflexivity.
Qed.

Lemma update_status_buttons (now : string) (b : bool) (s : App) :
  start_btn (_update_status now b s) = start_btn s /\
  stop_btn (_update_status now b s) = stop_btn s.
Proof.
  unfold _update_status, seq.
  destruct b, (previous_status s) as [[|]|] eqn:Hp; cbn; rewrite ?Hp;
    split; reflexivity.
Qed.

Lemma buttons_inv_ext (s s' : App) :
  is_monitoring s' = is_monitoring s ->
  start_btn s' = start_btn s -> stop_btn s' = stop_btn s ->
  buttons_inv s -> buttons_inv s'.
Proof. unfold buttons_inv. intros -> -> ->. exact (fun H => H). Qed.

Lemma buttons_inv_start (s : App) :
  buttons_inv s -> buttons_inv (start_monitoring s).
Proof.
  intros Hinv. destruct (is_monitoring s) eqn:Hm.
  - rewrite start_monitoring_running; assumption.
  - unfold buttons_inv. rewrite start_monitoring_is_monitoring.
    rewrite start_monitoring_idle by assumption.
    rewrite (proj1 (schedule_check_widgets _)).
    rewrite (proj1 (proj2 (schedule_check_widgets _))).
    split; reflexivity.
Qed.

Lemma stop_monitoring_buttons (s : App) :
  start_btn (stop_monitoring s) = normal /\
  stop_btn (stop_monitoring s) = disabled.
Proof.
  unfold stop_monitoring, seq. cbn. destruct (_monitor_job s); split;
    reflexivity.
Qed.

Lemma buttons_inv_stop (s : App) : buttons_inv (stop_monitoring s).
Proof.
  unfold buttons_inv. rewrite (proj1 (stop_monitoring_frame s)).
  apply stop_monitoring_buttons.
Qed.

Lemma buttons_inv_step (s : App) (e : event) (s' : App) :
  step s e = Some s' -> buttons_inv s -> buttons_inv s'.
Proof.
  intros Hs Hinv.
  destruct (step_cases s e s' Hs)
    as [[ms [_ ->]]|[[_ ->]|[[_ ->]|[[id ->]|[[id [now [b ->]]]
       |[[id [b ->]]|[[id ->]|[c [rest [_ ->]]]]]]]]]].
  - exact Hinv.
  - now apply buttons_inv_start.
  - apply buttons_inv_stop.
  - apply (buttons_inv_ext s); [ | | |exact Hinv].
    + now rewrite (proj1 (schedule_check_frame _)).
    + now rewrite (proj1 (schedule_check_widgets _)).
    + now rewrite (proj1 (proj2 (schedule_check_widgets _))).
  - apply (buttons_inv_ext s); [ | | |exact Hinv].
    + now rewrite (proj1 (update_status_frame _ _ _)).
    + now rewrite (proj1 (update_status_buttons _ _ _)).
    + now rewrite (proj2 (update_status_buttons _ _ _)).
  - exact Hinv.
  - exact Hinv.
  - destruct c. exact Hinv.
Qed.

(** X1. In every state that the application can reach, the Start button
    is disabled and the Stop button enabled while monitoring, and the
    other way round while not monitoring; in particular the window as
    built by [_build_ui] starts with Stop disabled. *)
Theorem buttons_follow_monitoring (evs : list event) (s : App) :
  run init evs = Some s ->
  if is_monitoring s
  then start_btn s = disabled /\ stop_btn s = normal
  else start_btn s = normal /\ stop_btn s = disabled.
Proof.
  intros Hrun.
  apply (run_invariant buttons_inv buttons_inv_step evs init s Hrun).
  split; reflexivity.
Qed.

Lemma buttons_follow_monitoring_witness :
  if is_monitoring (after_events init late_result_run)
  then start_btn (after_events init late_result_run) = disabled /\
       stop_btn (after_events init late_result_run) = normal
  else start_btn (after_events init late_result_run) = normal /\
       stop_btn (after_events init late_result_run) = disabled.
Proof.
  apply (buttons_follow_monitoring late_result_run
           (after_events init late_result_run)).
  vm_compute; reflexivity.
Defined.

(** ** The history box *)

Lemma string_app_assoc (a b c : string) : (a ++ b) ++ c = a ++ (b ++ c).
Proof. induction a as [|x a IH]; cbn; [reflexivity|now rewrite IH]. Qed.

Lemma render_history_app (h : list string) (m : string) :
  render_history (h ++ [m]) = render_history h ++ (m ++ newline).
Proof.
  induction h as [|x h IH]; cbn [render_history List.app].
  - reflexivity.
  - rewrite IH, !string_app_assoc. reflexivity.
Qed.

Lemma box_inv_ext (s s' : App) :
  history s' = history s -> history_box s' = history_box s ->
  history_box_state s' = history_box_state s ->
  box_inv s -> box_inv s'.
Proof. unfold box_inv. intros -> -> ->. exact (fun H => H). Qed.

Lemma box_inv_logged (s s' : App) (m : string) :
  history s' = (history s ++ [m])%list ->
  history_box s' = history_box s ++ (m ++ newline) ->
  history_box_state s' = disabled ->
  box_inv s -> box_inv s'.
Proof.
  unfold box_inv. intros -> -> -> [Hbox _]. split; [|reflexivity].
  now rewrite render_history_app, Hbox.
Qed.

Lemma stop_monitoring_box (s : App) :
  history_box (stop_monitoring s)
  = history_box s ++ ("Monitoring stopped." ++ newline) /\
  history_box_state (stop_monitoring s) = disabled.
Proof.
  unfold stop_monitoring, seq. cbn. destruct (_monitor_job s); split;
    reflexivity.
Qed.

Lemma update_status_box (now : string) (b : bool) (s : App) :
  (history (_update_status now b s) = history s /\
   history_box (_update_status now b s) = history_box s /\
   history_box_state (_update_status now b s) = history_box_state s) \/
  (exists m,
      history (_update_status now b s) = (history s ++ [m])%list /\
      history_box (_update_status now b s)
      = history_box s ++ (m ++ newline) /\
      history_box_state (_update_status now b s) = disabled).
Proof.
  unfold _update_status, seq.
  destruct b, (previous_status s) as [[|]|] eqn:Hp; cbn; rewrite ?Hp;
    cbn.
  - left. repeat apply conj; reflexivity.
  - right. exists (reconnected_line now). repeat apply conj; reflexivity.
  - right. exists (initial_line true now). repeat apply conj; reflexivity.
  - right. exists (disconnected_line now). repeat apply conj; reflexivity.
  - left. repeat apply conj; reflexivity.
  - right. exists (initial_line false now). repeat apply conj; reflexivity.
Qed.

Lemma box_inv_step (s : App) (e : event) (s' : App) :
  step s e = Some s' -> box_inv s -> box_inv s'.
Proof.
  intros Hs Hinv.
  destruct (step_cases s e s' Hs)
    as [[ms [_ ->]]|[[_ ->]|[[_ ->]|[[id ->]|[[id [now [b ->]]]
       |[[id [b ->]]|[[id ->]|[c [rest [_ ->]]]]]]]]]].
  - exact Hinv.
  - destruct (is_monitoring s) eqn:Hm.
    + rewrite start_monitoring_running; assumption.
    + rewrite start_monitoring_idle by assumption.
      apply (box_inv_logged s _ "Monitoring started."); [ | | |exact Hinv].
      * now rewrite (proj1 (proj2 (proj2 (schedule_check_frame _)))).
      * now rewrite (proj1 (proj2 (proj2 (schedule_check_widgets _)))).
      * now rewrite (proj2 (proj2 (proj2 (schedule_check_widgets _)))).
  - apply (box_inv_logged s _ "Monitoring stopped."); [ | | |exact Hinv].
    + apply stop_monitoring_frame.
    + apply stop_monitoring_box.
    + apply stop_monitoring_box.
  - apply (box_inv_ext s); [ | | |exact Hinv].
    + now rewrite (proj1 (proj2 (proj2 (schedule_check_frame _)))).
    + now rewrite (proj1 (proj2 (proj2 (schedule_check_widgets _)))).
    + now rewrite (proj2 (proj2 (proj2 (schedule_check_widgets _)))).
  - destruct (update_status_box now b (root_after_cancel id s))
      as [[Hh [Hb Hst]]|[m [Hh [Hb Hst]]]].
    + apply (box_inv_ext s); assumption.
    + apply (box_inv_logged s _ m); assumption.
  - exact Hinv.
  - exact Hinv.
  - destruct c. exact Hinv.
Qed.

(** X2. In every state that the application can reach, the history box
    shows exactly the entries of [history], in order and one per line,
    and is back in its read-only state. *)
Theorem history_box_mirrors_history (evs : list event) (s : App) :
  run init evs = Some s ->
  history_box s = render_history (history s) /\
  history_box_state s = disabled.
Proof.
  intros Hrun.
  apply (run_invariant box_inv box_inv_step evs init s Hrun).
  split; reflexivity.
Qed.

Lemma history_box_mirrors_history_witness :
  history_box (after_events init late_result_run)
  = render_history (history (after_events init late_result_run)) /\
  history_box_state (after_events init late_result_run) = disabled.
Proof.
  apply (history_box_mirrors_history late_result_run
           (after_events init late_result_run)).
  vm_compute; reflexivity.
Defined.

(** ** Message boxes and history lines *)

Lemma alerts_of_history_app (h : list string) (line : string) :
  alerts_of_history (h ++ [line])
  = (alerts_of_history h
     ++ match alert_of_line line with Some a => [a] | None => [] end)%list.
Proof.
  induction h as [|x h IH]; cbn [alerts_of_history List.app].
  - destruct (alert_of_line line); reflexivity.
  - rewrite IH. destruct (alert_of_line x); reflexivity.
Qed.

Lemma alert_of_reconnected_line (now : string) :
  alert_of_line (reconnected_line now) = Some (reconnected_alert now).
Proof. reflexivity. Qed.

Lemma alert_of_disconnected_line (now : string) :
  alert_of_line (disconnected_line now) = Some (disconnected_alert now).
Proof. reflexivity. Qed.

Lemma alert_of_initial_line (b : bool) (now : string) :
  alert_of_line (initial_line b now) = None.
Proof. destruct b; reflexivity. Qed.

Lemma log_inv_silent_line (s s' : App) (line : string) :
  alert_of_line line = None ->
  history s' = (history s ++ [line])%list -> alerts s' = alerts s ->
  log_inv s -> log_inv s'.
Proof.
  unfold log_inv. intros Hnone -> -> Hinv.
  rewrite alerts_of_history_app, Hnone, app_nil_r. exact Hinv.
Qed.

Lemma log_inv_alert_line (s s' : App) (line : string) (a : alert) :
  alert_of_line line = Some a ->
  history s' = (history s ++ [line])%list ->
  alerts s' = (alerts s ++ [a])%list ->
  log_inv s -> log_inv s'.
Proof.
  unfold log_inv. intros Hsome -> -> Hinv.
  rewrite alerts_of_history_app, Hsome, Hinv. reflexivity.
Qed.

Lemma log_inv_ext (s s' : App) :
  history s' = history s -> alerts s' = alerts s -> log_inv s -> log_inv s'.
Proof. unfold log_inv. intros -> ->. exact (fun H => H). Qed.

Lemma log_inv_update_status (now : string) (b : bool) (s : App) :
  log_inv s -> log_inv (_update_status now b s).
Proof.
  intros Hinv. destruct (previous_status s) as [p|] eqn:Hp.
  - destruct b, p.
    + rewrite update_status_unchanged by assumption. exact Hinv.
    + destruct (update_status_became_online now s Hp) as [Hh Ha].
      exact (log_inv_alert_line s _ _ _
               (alert_of_reconnected_line now) Hh Ha Hinv).
    + destruct (update_status_became_offline now s Hp) as [Hh Ha].
      exact (log_inv_alert_line s _ _ _
               (alert_of_disconnected_line now) Hh Ha Hinv).
    + rewrite update_status_unchanged by assumption. exact Hinv.
  - destruct (update_status_initial now b s Hp) as [Hh Ha].
    exact (log_inv_silent_line s _ _ (alert_of_initial_line b now) Hh Ha Hinv).
Qed.

Lemma log_inv_step (s : App) (e : event) (s' : App) :
  step s e = Some s' -> log_inv s -> log_inv s'.
Proof.
  intros Hs Hinv.
  destruct (step_cases s e s' Hs)
    as [[ms [_ ->]]|[[_ ->]|[[_ ->]|[[id ->]|[[id [now [b ->]]]
       |[[id [b ->]]|[[id ->]|[c [rest [_ ->]]]]]]]]]].
  - exact Hinv.
  - destruct (is_monitoring s) eqn:Hm.
    + rewrite start_monitoring_running; assumption.
    + apply (log_inv_silent_line s _ "Monitoring started."); [ | | |exact Hinv].
      * reflexivity.
      * now apply start_monitoring_history.
      * apply start_monitoring_alerts.
  - apply (log_inv_silent_line s _ "Monitoring stopped."); [ | | |exact Hinv].
    + reflexivity.
    + apply stop_monitoring_frame.
    + apply stop_monitoring_frame.
  - apply (log_inv_ext s); [ | |exact Hinv].
    + now rewrite (proj1 (proj2 (proj2 (schedule_check_frame _)))).
    + now rewrite (proj2 (proj2 (proj2 (proj2 (schedule_check_frame _))))).
  - apply (log_inv_update_status now b (root_after_cancel id s)).
    exact Hinv.
  - exact Hinv.
  - exact Hinv.
  - destruct c. exact Hinv.
Qed.

(** X4. In every state that the application can reach, the message boxes
    shown so far are exactly those that go with the RECONNECTED and
    DISCONNECTED lines of the history, in the same order and with the same
    timestamps: no box without its line, no such line without its box,
    and no box for the other lines. *)
Theorem alerts_match_history (evs : list event) (s : App) :
  run init evs = Some s ->
  alerts s = alerts_of_history (history s).
Proof.
  intros Hrun.
  apply (run_invariant log_inv log_inv_step evs init s Hrun).
  reflexivity.
Qed.

Lemma alerts_match_history_witness :
  alerts late_result_processed
  = alerts_of_history (history late_result_processed).
Proof.
  apply (alerts_match_history
           (late_result_run ++ [Fire 3 "10:00:05"; Dismiss])
           late_result_processed).
  vm_compute; reflexivity.
Defined.

(** ** After [stop_monitoring()] *)

Lemma stop_monitoring_next_worker (s : App) :
  next_worker (stop_monitoring s) = next_worker s.
Proof.
  unfold stop_monitoring, seq. cbn. destruct (_monitor_job s); reflexivity.
Qed.

Lemma update_status_next_worker (now : string) (b : bool) (s : App) :
  next_worker (_update_status now b s) = next_worker s.
Proof.
  unfold _update_status, seq.
  destruct b, (previous_status s) as [[|]|] eqn:Hp; cbn; rewrite ?Hp;
    cbn; rewrite ?Hp; reflexivity.
Qed.

Lemma quiet_step (s : App) (e : event) (s' : App) :
  step s e = Some s' ->
  is_start e = false ->
  is_monitoring s = false -> pending_checks s = [] ->
  is_monitoring s' = false /\
  pending_checks s' = [] /\
  next_worker s' = next_worker s /\
  incl (workers s') (workers s).
Proof.
  destruct e as [ms| | |id now|id get| ]; cbn [step is_start].
  - destruct (0 <=? ms); [|discriminate]. intros H _ Hm Hp.
    injection H as <-. repeat apply conj; auto. apply incl_refl.
  - intros _ H. discriminate H.
  - destruct (no_box_open s); [|discriminate].
    intros H _ Hm Hp. injection H as <-. repeat apply conj.
    + apply stop_monitoring_frame.
    + unfold pending_checks. rewrite stop_monitoring_after_queue.
      destruct (_monitor_job s); [|exact Hp].
      rewrite filter_swap. fold (pending_checks s). now rewrite Hp.
    + apply stop_monitoring_next_worker.
    + rewrite (proj1 (proj2 (proj2 (proj2 (proj2 (proj2
                 (stop_monitoring_frame s))))))).
      apply incl_refl.
  - destruct (find_job id s) as [j|]; [|discriminate].
    destruct (job_due j <=? clock s); [|discriminate].
    intros H _ Hm Hp. injection H as <-.
    assert (Hp' : pending_checks (root_after_cancel id s) = [])
      by (rewrite pending_checks_cancel, Hp; reflexivity).
    destruct (job_cb j) as [|b]; cbn [run_callback].
    + rewrite schedule_check_idle by exact Hm.
      repeat apply conj; auto. apply incl_refl.
    + repeat apply conj.
      * now rewrite (proj1 (update_status_frame _ _ _)).
      * unfold pending_checks.
        rewrite (proj1 (proj2 (proj2 (update_status_frame _ _ _)))).
        exact Hp'.
      * rewrite update_status_next_worker. reflexivity.
      * rewrite (proj2 (proj2 (proj2 (update_status_frame _ _ _)))).
        apply incl_refl.
  - destruct (find_worker id s); [|discriminate].
    unfold _check_connection.
    destruct (is_online_of get) as [b|x]; intros H _ Hm Hp;
      injection H as <-.
    + repeat apply conj; auto.
      * exact (eq_trans (pending_checks_post_update b (remove_worker id s))
                 Hp).
      * apply incl_filter.
    + repeat apply conj; auto. apply incl_filter.
  - destruct (open_boxes s) as [|c rest]; [discriminate|].
    intros H _ Hm Hp. injection H as <-. destruct c.
    repeat apply conj; auto. apply incl_refl.
Qed.

Lemma quiet_run (evs : list event) :
  forall s s',
    run s evs = Some s' ->
    no_start evs = true ->
    is_monitoring s = false -> pending_checks s = [] ->
    is_monitoring s' = false /\
    pending_checks s' = [] /\
    next_worker s' = next_worker s /\
    incl (workers s') (workers s).
Proof.
  induction evs as [|e evs IH]; intros s s'; cbn [run no_start forallb].
  - intros H _ Hm Hp. injection H as <-. repeat apply conj; auto.
    apply incl_refl.
  - destruct (step s e) as [s1|] eqn:Hs; [|discriminate].
    intros Hr Hq Hm Hp. apply andb_prop in Hq as [He Hq].
    apply negb_true_iff in He.
    destruct (quiet_step s e s1 Hs He Hm Hp) as [Hm1 [Hp1 [Hn1 Hw1]]].
    destruct (IH s1 s' Hr Hq Hm1 Hp1) as [Hm2 [Hp2 [Hn2 Hw2]]].
    repeat apply conj; auto.
    + congruence.
    + exact (incl_tran Hw2 Hw1).
Qed.

(** X5. After a [stop_monitoring()], as long as [start_monitoring()] is
    not called, whatever else happens (time passing, late timers, workers
    finishing, results delivered, further stops): monitoring stays off, no
    call of [_schedule_check] is queued, no new probe worker is launched,
    and the workers in flight are among those that were in flight at the
    stop. *)
Theorem no_probe_after_stop (evs0 evs : list event) (s0 s' : App) :
  run init evs0 = Some s0 ->
  run (stop_monitoring s0) evs = Some s' ->
  no_start evs = true ->
  is_monitoring s' = false /\
  pending_checks s' = [] /\
  next_worker s' = next_worker s0 /\
  incl (workers s') (workers s0).
Proof.
  intros Hrun0 Hrun Hq.
  assert (Hinv : trigger_inv s0)
    by (apply (trigger_inv_run evs0 init s0 Hrun0); left; reflexivity).
  pose proof (proj1 (stop_monitoring_frame s0)) as Hm.
  pose proof (trigger_inv_idle _ (trigger_inv_stop s0 Hinv) Hm) as Hp.
  destruct (quiet_run evs _ _ Hrun Hq Hm Hp) as [Hm' [Hp' [Hn' Hw']]].
  rewrite stop_monitoring_next_worker in Hn'.
  rewrite (proj1 (proj2 (proj2 (proj2 (proj2 (proj2
             (stop_monitoring_frame s0))))))) in Hw'.
  repeat apply conj; assumption.
Qed.

Lemma no_probe_after_stop_witness :
  is_monitoring late_result_processed = false /\
  pending_checks late_result_processed = [] /\
  next_worker late_result_processed
  = next_worker (after_events init
                   [Call_start; Worker_done 0 (Requests.Response 200);
                    Fire 1 "10:00:00"; Elapse 3000; Fire 0 "10:00:03"]) /\
  incl (workers late_result_processed)
       (workers (after_events init
                   [Call_start; Worker_done 0 (Requests.Response 200);
                    Fire 1 "10:00:00"; Elapse 3000; Fire 0 "10:00:03"])).
Proof.
  apply (no_probe_after_stop
           [Call_start; Worker_done 0 (Requests.Response 200);
            Fire 1 "10:00:00"; Elapse 3000; Fire 0 "10:00:03"]
           [Worker_done 1 (Requests.Raises Requests.ConnectionError);
            Fire 3 "10:00:05"; Dismiss]);
    vm_compute; reflexivity.
Defined.

(** ** The trigger while monitoring *)

Lemma unique_ids_eq (q : list after_job) (a b : after_job) :
  NoDup (map job_id q) -> In a q -> In b q -> job_id a = job_id b -> a = b.
Proof.
  induction q as [|x q IH]; cbn; [contradiction|].
  intros Hnd Ha Hb Hid. inversion Hnd as [|? ? Hnotin Hnd']; subst.
  destruct Ha as [->|Ha], Hb as [->|Hb].
  - reflexivity.
  - exfalso. apply Hnotin. rewrite Hid. now apply in_map.
  - exfalso. apply Hnotin. rewrite <- Hid. now apply in_map.
  - now apply IH.
Qed.

Lemma unique_ids_find (q : list after_job) (j : after_job) :
  NoDup (map job_id q) -> In j q ->
  find (fun x => Nat.eqb (job_id x) (job_id j)) q = Some j.
Proof.
  intros Hnd Hin.
  destruct (find (fun x => Nat.eqb (job_id x) (job_id j)) q) as [x|] eqn:Hf.
  - apply find_some in Hf as [Hx Hid]. apply Nat.eqb_eq in Hid.
    now rewrite (unique_ids_eq q x j Hnd Hx Hin Hid).
  - pose proof (find_none _ _ Hf j Hin) as H. cbn in H.
    now rewrite Nat.eqb_refl in H.
Qed.

Lemma unique_ids_filter (f : after_job -> bool) (q : list after_job) :
  NoDup (map job_id q) -> NoDup (map job_id (filter f q)).
Proof.
  induction q as [|x q IH]; cbn; [exact (fun H => H)|].
  intros Hnd. inversion Hnd as [|? ? Hnotin Hnd']; subst.
  destruct (f x); cbn; [|now apply IH].
  constructor; [|now apply IH].
  intros Hin. apply Hnotin. apply in_map_iff in Hin as [y [Hy Hin]].
  apply filter_In in Hin as [Hin _]. apply in_map_iff. now exists y.
Qed.

Lemma unique_ids_snoc (q : list after_job) (j : after_job) :
  Forall (fun x => (job_id x < job_id j)%nat) q ->
  NoDup (map job_id q) -> NoDup (map job_id (q ++ [j])).
Proof.
  intros Hlt Hnd. rewrite map_app. apply NoDup_app.
  - exact Hnd.
  - cbn. constructor; [intros []|constructor].
  - intros a Ha [<-|[]]. apply in_map_iff in Ha as [x [Hx Hin]].
    rewrite Forall_forall in Hlt. specialize (Hlt x Hin). lia.
Qed.

Lemma schedule_check_after_queue (s : App) :
  after_queue (_schedule_check s)
  = (after_queue s
     ++ if is_monitoring s
        then [mk_job (next_job s) (clock s + CHECK_INTERVAL)
                cb_schedule_check]
        else [])%list.
Proof.
  unfold _schedule_check. destruct (is_monitoring s); cbn.
  - reflexivity.
  - now rewrite app_nil_r.
Qed.

Lemma ids_unique_ext (s s' : App) :
  after_queue s' = after_queue s -> ids_unique s -> ids_unique s'.
Proof. unfold ids_unique. intros ->. exact (fun H => H). Qed.

Lemma ids_unique_cancel (id : nat) (s : App) :
  ids_unique s -> ids_unique (root_after_cancel id s).
Proof. apply unique_ids_filter. Qed.

Lemma ids_unique_schedule_check (s : App) :
  ids_fresh s = true -> ids_unique s -> ids_unique (_schedule_check s).
Proof.
  intros Hf Hu. unfold ids_unique. rewrite schedule_check_after_queue.
  destruct (is_monitoring s); [|now rewrite app_nil_r].
  apply unique_ids_snoc; [|exact Hu]. now apply ids_fresh_forall.
Qed.

Lemma ids_unique_step (s : App) (e : event) (s' : App) :
  step s e = Some s' ->
  ids_fresh s = true -> ids_unique s -> ids_unique s'.
Proof.
  intros Hs Hf Hu.
  destruct (step_cases s e s' Hs)
    as [[ms [_ ->]]|[[_ ->]|[[_ ->]|[[id ->]|[[id [now [b ->]]]
       |[[id [b ->]]|[[id ->]|[c [rest [_ ->]]]]]]]]]].
  - exact Hu.
  - destruct (is_monitoring s) eqn:Hm.
    + rewrite start_monitoring_running; assumption.
    + rewrite start_monitoring_idle by assumption.
      apply ids_unique_schedule_check.
      * apply (ids_fresh_ext s); [reflexivity|reflexivity|exact Hf].
      * exact Hu.
  - unfold ids_unique. rewrite stop_monitoring_after_queue.
    destruct (_monitor_job s); [|exact Hu]. now apply unique_ids_filter.
  - apply ids_unique_schedule_check.
    + now apply ids_fresh_cancel.
    + now apply ids_unique_cancel.
  - apply (ids_unique_ext (root_after_cancel id s)).
    + apply update_status_frame.
    + now apply ids_unique_cancel.
  - unfold ids_unique, post_update. cbn.
    apply (unique_ids_snoc (after_queue s)); [|exact Hu].
    now apply ids_fresh_forall.
  - exact Hu.
  - destruct c. exact Hu.
Qed.

Lemma armed_inv_step (s : App) (e : event) (s' : App) :
  step s e = Some s' ->
  trigger_inv s -> ids_unique s -> armed_inv s -> armed_inv s'.
Proof.
  intros Hs Hinv Hu Harm.
  destruct e as [ms| | |id now|id get| ]; cbn [step] in Hs.
  - destruct (0 <=? ms) eqn:Hms; [|discriminate]. injection Hs as <-.
    apply Z.leb_le in Hms. intros Hm.
    destruct (Harm Hm) as [j [Hp [Hj Hdue]]].
    exists j. repeat apply conj; [exact Hp|exact Hj|cbn; lia].
  - destruct (no_box_open s); [|discriminate].
    injection Hs as <-. destruct (is_monitoring s) eqn:Hm.
    + rewrite start_monitoring_running; assumption.
    + intros _. rewrite start_monitoring_idle by assumption.
      set (s0 := _log_history "Monitoring started." _).
      assert (Hp0 : pending_checks s0 = [])
        by exact (trigger_inv_idle s Hinv Hm).
      eexists. repeat apply conj.
      * rewrite pending_checks_schedule_check by reflexivity.
        rewrite Hp0. reflexivity.
      * rewrite schedule_check_running by reflexivity. reflexivity.
      * rewrite schedule_check_clock. apply Z.le_refl.
  - destruct (no_box_open s); [|discriminate].
    injection Hs as <-. intros Hm.
    rewrite (proj1 (stop_monitoring_frame s)) in Hm. discriminate.
  - destruct (find_job id s) as [j|] eqn:Hf; [|discriminate].
    destruct (job_due j <=? clock s); [|discriminate].
    injection Hs as <-. apply find_job_some in Hf as [Hin Hid].
    destruct (job_cb j) as [|b] eqn:Hcb; cbn [run_callback].
    + assert (Hpend : In j (pending_checks s)).
      { apply filter_In. split; [exact Hin|].
        unfold is_schedule_job. now rewrite Hcb. }
      destruct Hinv as [H|[j' [H [Hj Hm]]]]; rewrite H in Hpend;
        [contradiction|].
      destruct Hpend as [->|[]]. intros _.
      eexists. repeat apply conj.
      * rewrite pending_checks_schedule_check by exact Hm.
        rewrite pending_checks_cancel, H. cbn.
        rewrite Hid, Nat.eqb_refl. reflexivity.
      * rewrite schedule_check_running by exact Hm. reflexivity.
      * rewrite schedule_check_clock. apply Z.le_refl.
    + intros Hm. rewrite (proj1 (update_status_frame _ _ _)) in Hm.
      destruct (Harm Hm) as [j0 [Hp [Hj Hdue]]].
      assert (Hj0 : In j0 (pending_checks s)) by (rewrite Hp; now left).
      apply filter_In in Hj0 as [Hin0 Hsched].
      assert (Hne : Nat.eqb (job_id j0) id = false).
      { apply Nat.eqb_neq. intros Heq.
        assert (j0 = j)
          by (apply (unique_ids_eq (after_queue s)); auto; congruence).
        subst j0. unfold is_schedule_job in Hsched.
        rewrite Hcb in Hsched. discriminate. }
      exists j0. repeat apply conj.
      * unfold pending_checks.
        rewrite (proj1 (proj2 (proj2 (update_status_frame _ _ _)))).
        fold (pending_checks (root_after_cancel id s)).
        rewrite pending_checks_cancel, Hp. cbn. now rewrite Hne.
      * now rewrite (proj1 (proj2 (update_status_frame _ _ _))).
      * unfold _update_status, seq.
        destruct b, (previous_status s) as [[|]|] eqn:Hprev; cbn;
          rewrite ?Hprev; exact Hdue.
  - destruct (find_worker id s); [|discriminate].
    unfold _check_connection in Hs.
    destruct (is_online_of get) as [b|x]; injection Hs as <-; intros Hm;
      destruct (Harm Hm) as [j [Hp [Hj Hdue]]]; exists j;
      repeat apply conj; try assumption.
    exact (eq_trans (pending_checks_post_update b (remove_worker id s)) Hp).
  - destruct (open_boxes s) as [|c rest]; [discriminate|].
    injection Hs as <-. destruct c. exact Harm.
Qed.

Lemma reachable_invariants (evs : list event) (s : App) :
  run init evs = Some s ->
  trigger_inv s /\ ids_fresh s = true /\ ids_unique s /\ armed_inv s.
Proof.
  intros Hrun.
  apply (run_invariant
           (fun s => trigger_inv s /\ ids_fresh s = true /\
                     ids_unique s /\ armed_inv s)) with (evs := evs) (s := init);
    [|exact Hrun|].
  - intros s0 e s1 Hs [Ht [Hf [Hu Ha]]]. repeat apply conj.
    + exact (trigger_inv_step _ _ _ Hs Ht).
    + exact (ids_fresh_step _ _ _ Hs Hf).
    + exact (ids_unique_step _ _ _ Hs Hf Hu).
    + exact (armed_inv_step _ _ _ Hs Ht Hu Ha).
  - repeat apply conj.
    + left. reflexivity.
    + reflexivity.
    + constructor.
    + intros H. discriminate.
Qed.

(** X6. In every state that the application can reach while monitoring,
    exactly one call of [_schedule_check] is queued; it is the job that
    [_monitor_job] names, and it is due no later than [CHECK_INTERVAL] =
    3000 ms from now: the periodic check never gets lost while monitoring
    is on. *)
Theorem check_is_armed_while_monitoring (evs : list event) (s : App) :
  run init evs = Some s ->
  is_monitoring s = true ->
  exists j,
    pending_checks s = [j] /\
    _monitor_job s = Some (job_id j) /\
    job_due j <= clock s + 3000.
Proof.
  intros Hrun. apply (reachable_invariants evs s Hrun).
Qed.

Lemma check_is_armed_while_monitoring_witness :
  exists j,
    pending_checks online_reading = [j] /\
    _monitor_job online_reading = Some (job_id j) /\
    job_due j <= clock online_reading + 3000.
Proof.
  apply (check_is_armed_while_monitoring
           [Call_start; Worker_done 0 (Requests.Response 200);
            Fire 1 "10:00:00"]
           online_reading);
    vm_compute; reflexivity.
Defined.

(** X7. From every state that the application can reach while monitoring,
    the queued trigger can run once 3000 ms have passed, and running it
    launches the next probe worker and leaves monitoring on: the loop
    keeps probing for as long as it is not stopped. *)
Theorem next_probe_is_due_within_interval
    (evs : list event) (s : App) (now : string) :
  run init evs = Some s ->
  is_monitoring s = true ->
  exists id s',
    _monitor_job s = Some id /\
    run s [Elapse 3000; Fire id now] = Some s' /\
    is_monitoring s' = true /\
    workers s'
    = (workers s ++ [mk_worker (next_worker s) (clock s + 3000)])%list.
Proof.
  intros Hrun Hm.
  destruct (reachable_invariants evs s Hrun) as [_ [_ [Hu Harm]]].
  destruct (Harm Hm) as [j [Hp [Hj Hdue]]].
  assert (Hj0 : In j (pending_checks s)) by (rewrite Hp; now left).
  apply filter_In in Hj0 as [Hin Hsched].
  assert (Hcb : job_cb j = cb_schedule_check).
  { unfold is_schedule_job in Hsched. destruct (job_cb j);
      [reflexivity|discriminate]. }
  set (s1 := set_clock (clock s + 3000) s).
  assert (Hs1 : step s (Elapse 3000) = Some s1) by reflexivity.
  assert (Hs2 : step s1 (Fire (job_id j) now)
                = Some (_schedule_check (root_after_cancel (job_id j) s1))).
  { cbn [step].
    replace (find_job (job_id j) s1) with (Some j)
      by (symmetry; exact (unique_ids_find (after_queue s) j Hu Hin)).
    replace (job_due j <=? clock s1) with true
      by (symmetry; apply Z.leb_le; exact Hdue).
    rewrite Hcb. reflexivity. }
  exists (job_id j), (_schedule_check (root_after_cancel (job_id j) s1)).
  repeat apply conj.
  - exact Hj.
  - rewrite (run_cons _ _ _ _ Hs1), (run_cons _ _ _ _ Hs2). reflexivity.
  - rewrite (proj1 (schedule_check_frame _)). exact Hm.
  - rewrite schedule_check_workers.
    change (is_monitoring (root_after_cancel (job_id j) s1))
      with (is_monitoring s).
    rewrite Hm. reflexivity.
Qed.

Lemma next_probe_is_due_within_interval_witness :
  exists id s',
    _monitor_job online_reading = Some id /\
    run online_reading [Elapse 3000; Fire id "10:00:03"] = Some s' /\
    is_monitoring s' = true /\
    workers s'
    = (workers online_reading
       ++ [mk_worker (next_worker online_reading)
             (clock online_reading + 3000)])%list.
Proof.
  apply (next_probe_is_due_within_interval
           [Call_start; Worker_done 0 (Requests.Response 200);
            Fire 1 "10:00:00"]
           online_reading "10:00:03");
    vm_compute; reflexivity.
Defined.

(** ** Exceptions that [_check_connection] does not catch *)

(** X8. The [except] clause of [_check_connection] catches
    [requests.RequestException] only.  When [requests.get] raises an
    exception of any other class, the exception leaves
    [_check_connection]: no [_update_status] call is posted, and the event
    of that worker ending changes nothing but the list of workers in
    flight, so the label, the history and [previous_status] keep showing
    the earlier reading. *)
Theorem other_exceptions_escape
    (e : Requests.exc_class) (s : App) (id : nat) (w : worker) :
  Requests.issubclass e Requests.RequestException = false ->
  find_worker id s = Some w ->
  _check_connection (Requests.Raises e) s = Raise e /\
  step s (Worker_done id (Requests.Raises e)) = Some (remove_worker id s) /\
  after_queue (remove_worker id s) = after_queue s /\
  status_label (remove_worker id s) = status_label s /\
  history (remove_worker id s) = history s /\
  previous_status (remove_worker id s) = previous_status s.
Proof.
  intros He Hw.
  assert (Hc : forall s0, _check_connection (Requests.Raises e) s0 = Raise e).
  { intros s0. unfold _check_connection, is_online_of. rewrite He.
    reflexivity. }
  split; [apply Hc|]. split; [|repeat apply conj; reflexivity].
  cbn [step]. rewrite Hw, Hc. reflexivity.
Qed.

Lemma other_exceptions_escape_witness :
  _check_connection (Requests.Raises Requests.MemoryError)
    (start_monitoring init)
  = Raise Requests.MemoryError /\
  step (start_monitoring init)
    (Worker_done 0 (Requests.Raises Requests.MemoryError))
  = Some (remove_worker 0 (start_monitoring init)).
Proof.
  destruct (other_exceptions_escape Requests.MemoryError
              (start_monitoring init) 0%nat
              (mk_worker 0 0) eq_refl eq_refl) as [H1 [H2 _]].
  split; [exact H1|exact H2].
Defined.

(** ** Repeated [stop_monitoring()] *)

(** X9. Calling [stop_monitoring()] again right after a
    [stop_monitoring()] changes nothing except that the entry
    [Monitoring stopped.] is written once more, to the history and to the
    history box. *)
Theorem second_stop_only_logs (s : App) :
  stop_monitoring (stop_monitoring s)
  = _log_history "Monitoring stopped." (stop_monitoring s).
Proof.
  destruct s as [m p h [job|] l sb tb hb hs q nj c ws nw al ob];
    vm_compute; reflexivity.
Qed.

(** ** Initial readings and starts in the history *)

Lemma count_lines_app (f : string -> bool) (h : list string) (line : string) :
  count_lines f (h ++ [line])
  = (count_lines f h + if f line then 1 else 0)%nat.
Proof.
  unfold count_lines. rewrite filter_app, length_app. cbn.
  destruct (f line); reflexivity.
Qed.

Lemma initial_line_kind (b : bool) (now : string) :
  is_started_line (initial_line b now) = false /\
  is_initial_line (initial_line b now) = true.
Proof. destruct b; split; reflexivity. Qed.

Lemma transition_line_kind (now : string) :
  is_started_line (reconnected_line now) = false /\
  is_initial_line (reconnected_line now) = false /\
  is_started_line (disconnected_line now) = false /\
  is_initial_line (disconnected_line now) = false.
Proof. repeat apply conj; reflexivity. Qed.

Lemma sessions_inv_ext (s s' : App) :
  history s' = history s -> previous_status s' = previous_status s ->
  is_monitoring s' = is_monitoring s -> workers s' = workers s ->
  filter is_update_job (after_queue s') = filter is_update_job (after_queue s) ->
  sessions_inv s -> sessions_inv s'.
Proof. unfold sessions_inv. intros -> -> -> -> ->. exact (fun H => H). Qed.

Lemma sessions_inv_update_status (now : string) (b : bool) (s : App) :
  (count_lines is_initial_line (history s)
   + (if is_None (previous_status s) then 1 else 0)
   <= count_lines is_started_line (history s))%nat ->
  sessions_inv (_update_status now b s).
Proof.
  intros Hle. right. rewrite update_status_previous.
  destruct (previous_status s) as [p|] eqn:Hp; cbn [is_None] in Hle |- *.
  - destruct b, p.
    + rewrite update_status_unchanged by assumption. exact Hle.
    + rewrite (proj1 (update_status_became_online now s Hp)).
      rewrite !count_lines_app.
      destruct (transition_line_kind now) as [-> [-> _]]. lia.
    + rewrite (proj1 (update_status_became_offline now s Hp)).
      rewrite !count_lines_app.
      destruct (transition_line_kind now) as [_ [_ [-> ->]]]. lia.
    + rewrite update_status_unchanged by assumption. exact Hle.
  - rewrite (proj1 (update_status_initial now b s Hp)).
    rewrite !count_lines_app.
    destruct (initial_line_kind b now) as [-> ->]. lia.
Qed.

Lemma sessions_inv_start (s : App) :
  sessions_inv s -> sessions_inv (start_monitoring s).
Proof.
  intros Hinv. destruct (is_monitoring s) eqn:Hm.
  - rewrite start_monitoring_running; assumption.
  - right. rewrite start_monitoring_previous_status, Hm.
    rewrite (start_monitoring_history s Hm), !count_lines_app.
    cbn [is_None].
    change (is_started_line "Monitoring started.") with true.
    change (is_initial_line "Monitoring started.") with false.
    destruct Hinv as [[Hs [Hi _]]|Hle].
    + rewrite Hs, Hi. lia.
    + destruct (is_None (previous_status s)); lia.
Qed.

Lemma sessions_inv_stop (s : App) :
  sessions_inv s -> sessions_inv (stop_monitoring s).
Proof.
  unfold sessions_inv.
  rewrite (proj1 (stop_monitoring_frame s)).
  rewrite (proj1 (proj2 (stop_monitoring_frame s))).
  rewrite (proj1 (proj2 (proj2 (stop_monitoring_frame s)))).
  rewrite (proj1 (proj2 (proj2 (proj2 (proj2 (proj2
             (stop_monitoring_frame s))))))).
  rewrite !count_lines_app.
  change (is_started_line "Monitoring stopped.") with false.
  change (is_initial_line "Monitoring stopped.") with false.
  rewrite !Nat.add_0_r.
  intros [[Hs [Hi [Hp [_ [Hw Hq]]]]]|Hle]; [left|right; exact Hle].
  repeat apply conj; auto.
  rewrite stop_monitoring_after_queue.
  destruct (_monitor_job s); [|exact Hq].
  rewrite filter_swap, Hq. reflexivity.
Qed.

Lemma sessions_inv_step (s : App) (e : event) (s' : App) :
  step s e = Some s' -> sessions_inv s -> sessions_inv s'.
Proof.
  destruct e as [ms| | |id now|id get| ]; cbn [step].
  - destruct (0 <=? ms); [|discriminate]. intros H. injection H as <-.
    exact (fun H => H).
  - destruct (no_box_open s); [|discriminate].
    intros H. injection H as <-. apply sessions_inv_start.
  - destruct (no_box_open s); [|discriminate].
    intros H. injection H as <-. apply sessions_inv_stop.
  - destruct (find_job id s) as [j|] eqn:Hf; [|discriminate].
    destruct (job_due j <=? clock s); [|discriminate].
    intros H Hinv. injection H as <-.
    apply find_job_some in Hf as [Hin Hid].
    destruct (job_cb j) as [|b] eqn:Hcb; cbn [run_callback].
    + destruct Hinv as [[Hs [Hi [Hp [Hm [Hw Hq]]]]]|Hle].
      * left. rewrite schedule_check_idle by exact Hm.
        repeat apply conj; auto. cbn.
        rewrite filter_swap, Hq. reflexivity.
      * right.
        rewrite (proj1 (proj2 (schedule_check_frame _))).
        rewrite (proj1 (proj2 (proj2 (schedule_check_frame _)))).
        exact Hle.
    + destruct Hinv as [[_ [_ [_ [_ [_ Hq]]]]]|Hle].
      * assert (Hj : In j (filter is_update_job (after_queue s))).
        { apply filter_In. split; [exact Hin|].
          unfold is_update_job, is_schedule_job. now rewrite Hcb. }
        rewrite Hq in Hj. contradiction.
      * apply (sessions_inv_update_status now b (root_after_cancel id s)).
        exact Hle.
  - destruct (find_worker id s) as [w|] eqn:Hf; [|discriminate].
    intros H Hinv.
    assert (Hle : (count_lines is_initial_line (history s)
                   + (if is_None (previous_status s) then 1 else 0)
                   <= count_lines is_started_line (history s))%nat).
    { destruct Hinv as [[_ [_ [_ [_ [Hw _]]]]]|Hle]; [|exact Hle].
      unfold find_worker in Hf. apply find_some in Hf as [Hin _].
      rewrite Hw in Hin. contradiction. }
    unfold _check_connection in H.
    destruct (is_online_of get) as [b|x]; injection H as <-; right;
      exact Hle.
  - destruct (open_boxes s) as [|c rest]; [discriminate|].
    intros H Hinv. injection H as <-. destruct c. right.
    change (count_lines is_initial_line (history s) + 0
            <= count_lines is_started_line (history s))%nat.
    destruct Hinv as [[-> [-> _]]|Hle]; [lia|].
    destruct (is_None (previous_status s)); lia.
Qed.

(** X10. In every state that the application can reach, the history has
    at most as many [Initial status: ...] lines as [Monitoring started.]
    lines: a monitoring session logs its initial reading at most once,
    and no initial reading is logged before the first start. *)
Theorem one_initial_reading_per_start (evs : list event) (s : App) :
  run init evs = Some s ->
  (count_lines is_initial_line (history s)
   <= count_lines is_started_line (history s))%nat.
Proof.
  intros Hrun.
  assert (Hinv : sessions_inv s).
  { apply (run_invariant sessions_inv sessions_inv_step evs init s Hrun).
    left. repeat apply conj; reflexivity. }
  destruct Hinv as [[-> [-> _]]|Hle]; lia.
Qed.

Lemma one_initial_reading_per_start_witness :
  (count_lines is_initial_line (history late_result_processed)
   <= count_lines is_started_line (history late_result_processed))%nat.
Proof.
  apply (one_initial_reading_per_start
           (late_result_run ++ [Fire 3 "10:00:05"; Dismiss])
           late_result_processed).
  vm_compute; reflexivity.
Defined.

(** ** Consecutive results with no message box open *)

Lemma consecutive_results_previous
    (s0 s1 s2 : App) (evs : list event) (i1 : nat) (t1 : string)
    (earlier : bool) :
  open_boxes s0 = [] ->
  delivered s0 (Fire i1 t1) = Some earlier ->
  step s0 (Fire i1 t1) = Some s1 ->
  run s1 evs = Some s2 ->
  no_result_no_restart s1 evs = true ->
  open_boxes s2 = [] ->
  previous_status s2 = Some earlier.
Proof.
  intros Hb0 Hd1 Hs1 Hrun Hquiet Hb2.
  rewrite (delivered_fire _ _ _ _ Hd1) in Hs1. injection Hs1 as <-.
  pose proof (update_status_holds_reading t1 earlier
                (root_after_cancel i1 s0) Hb0) as Hheld.
  destruct (run_holds_reading earlier evs _ _ Hrun Hquiet Hheld)
    as [[_ Hp]|Hb]; [exact Hp|].
  rewrite Hb2 in Hb. discriminate.
Qed.

(** X11. When no message box is open at the moment either of two
    consecutive results is delivered (no result and no restart in
    between) and the results differ, the later one is processed as a
    transition: if it is reachable the history gains the RECONNECTED line
    and an info box is shown, otherwise the history gains the
    DISCONNECTED line and a warning box is shown; the RECONNECTED line is
    written exactly when the later result is reachable. *)
Theorem differing_results_without_open_box
    (s0 s1 s2 : App) (evs : list event) (i1 i2 : nat) (t1 t2 : string)
    (earlier later : bool) :
  open_boxes s0 = [] ->
  delivered s0 (Fire i1 t1) = Some earlier ->
  step s0 (Fire i1 t1) = Some s1 ->
  run s1 evs = Some s2 ->
  no_result_no_restart s1 evs = true ->
  open_boxes s2 = [] ->
  delivered s2 (Fire i2 t2) = Some later ->
  later <> earlier ->
  exists s3,
    step s2 (Fire i2 t2) = Some s3 /\
    (if later
     then history s3 = (history s2 ++ [reconnected_line t2])%list /\
          alerts s3 = (alerts s2 ++ [reconnected_alert t2])%list
     else history s3 = (history s2 ++ [disconnected_line t2])%list /\
          alerts s3 = (alerts s2 ++ [disconnected_alert t2])%list) /\
    (history s3 = (history s2 ++ [reconnected_line t2])%list
     <-> later = true).
Proof.
  intros Hb0 Hd1 Hs1 Hrun Hquiet Hb2 Hd2 Hne.
  assert (Hp : previous_status (root_after_cancel i2 s2) = Some earlier)
    by exact (consecutive_results_previous _ _ _ _ _ _ _
                Hb0 Hd1 Hs1 Hrun Hquiet Hb2).
  eexists. split; [apply delivered_fire; exact Hd2|].
  destruct later, earlier; try congruence.
  - pose proof (update_status_became_online t2 _ Hp) as [Hh Ha].
    change (history (root_after_cancel i2 s2)) with (history s2) in Hh.
    change (alerts (root_after_cancel i2 s2)) with (alerts s2) in Ha.
    repeat split; auto.
  - pose proof (update_status_became_offline t2 _ Hp) as [Hh Ha].
    change (history (root_after_cancel i2 s2)) with (history s2) in Hh.
    change (alerts (root_after_cancel i2 s2)) with (alerts s2) in Ha.
    repeat split; auto; try discriminate.
    intros H. rewrite Hh in H. apply app_inv_head in H.
    exfalso. exact (lines_differ t2 (eq_sym (f_equal (hd EmptyString) H))).
Qed.

Lemma differing_results_without_open_box_witness :
  exists s3,
    step (after_events online_reading second_probe_times_out)
         (Fire 3 "10:00:06") = Some s3 /\
    (history s3 =
       (history (after_events online_reading second_probe_times_out)
        ++ [disconnected_line "10:00:06"])%list /\
     alerts s3 =
       (alerts (after_events online_reading second_probe_times_out)
        ++ [disconnected_alert "10:00:06"])%list) /\
    (history s3 =
       (history (after_events online_reading second_probe_times_out)
        ++ [reconnected_line "10:00:06"])%list
     <-> false = true).
Proof.
  apply (differing_results_without_open_box
           (after_events init [Call_start;
                               Worker_done 0 (Requests.Response 200)])
           online_reading
           (after_events online_reading second_probe_times_out)
           second_probe_times_out
           1%nat 3%nat "10:00:00" "10:00:06" true false);
    try discriminate; vm_compute; reflexivity.
Defined.

(** X12. When no message box is open at the moment either of two
    consecutive results is delivered (no result and no restart in
    between) and the results are equal, the later one is processed as
    unchanged: nothing is appended to the history or to the history box,
    no message box is shown, and the only attribute written is the status
    label. *)
Theorem equal_results_without_open_box
    (s0 s1 s2 : App) (evs : list event) (i1 i2 : nat) (t1 t2 : string)
    (earlier later : bool) :
  open_boxes s0 = [] ->
  delivered s0 (Fire i1 t1) = Some earlier ->
  step s0 (Fire i1 t1) = Some s1 ->
  run s1 evs = Some s2 ->
  no_result_no_restart s1 evs = true ->
  open_boxes s2 = [] ->
  delivered s2 (Fire i2 t2) = Some later ->
  later = earlier ->
  exists s3,
    step s2 (Fire i2 t2) = Some s3 /\
    s3 = set_status_label (label_for later) (root_after_cancel i2 s2) /\
    history s3 = history s2 /\
    history_box s3 = history_box s2 /\
    alerts s3 = alerts s2 /\
    open_boxes s3 = [].
Proof.
  intros Hb0 Hd1 Hs1 Hrun Hquiet Hb2 Hd2 ->.
  assert (Hp : previous_status (root_after_cancel i2 s2) = Some earlier)
    by exact (consecutive_results_previous _ _ _ _ _ _ _
                Hb0 Hd1 Hs1 Hrun Hquiet Hb2).
  eexists. split; [apply delivered_fire; exact Hd2|].
  rewrite (update_status_unchanged t2 earlier _ Hp).
  repeat split. exact Hb2.
Qed.

Lemma equal_results_without_open_box_witness :
  exists s3,
    step (after_events online_reading second_probe_succeeds)
         (Fire 3 "10:00:06") = Some s3 /\
    s3 = set_status_label (label_for true)
           (root_after_cancel 3
              (after_events online_reading second_probe_succeeds)) /\
    history s3 = history (after_events online_reading second_probe_succeeds) /\
    history_box s3
    = history_box (after_events online_reading second_probe_succeeds) /\
    alerts s3 = alerts (after_events online_reading second_probe_succeeds) /\
    open_boxes s3 = [].
Proof.
  apply (equal_results_without_open_box
           (after_events init [Call_start;
                               Worker_done 0 (Requests.Response 200)])
           online_reading
           (after_events online_reading second_probe_succeeds)
           second_probe_succeeds
           1%nat 3%nat "10:00:00" "10:00:06" true true);
    vm_compute; reflexivity.
Defined.
